(** * AI Study Tool: the [App] component of [src/index.tsx]

    A shallow embedding of the component's state (one field per
    [useState] cell), of its event handlers (one function per handler,
    written with the same setters in the same order) and of the three
    collaborators the handlers talk to: the text-generation service, the
    image-generation service and [localStorage].

    Conventions.
    - A handler reads the state of the render it was created in and
      queues absolute updates; every setter of the source is called with a
      value computed from that render (the only functional updater is the
      one of [setCurrentCard], modelled as such), so a handler is a
      function from the rendered state to the next one.
    - JavaScript numbers that hold indices and counts are [Z].
    - A value that may be [null] or [undefined] is an [option].
    - [handleGenerate] is asynchronous.  Its awaits are answered by a
      [World]; the handler is one transition, no other event being
      dispatched while it is in flight.  The delayed half of
      [navigateCard] is kept apart, as a pending timer. *)

From Stdlib Require Import String Ascii ZArith List Bool Lia.
Import ListNotations.

Local Open Scope string_scope.
Local Open Scope Z_scope.

Notation "st |> f" := (f st) (at level 50, left associativity, only parsing).

(** ** Data model *)

(** [inputType] is ["text"] or ["image"], [generationMode] is
    ["flashcards"] or ["mcqs"]. *)
Inductive InputType : Type := Text | Image.
Inductive GenerationMode : Type := Flashcards | MCQs.

(** The [File] picked in the file input: [image.name], [file.type]. *)
Record File : Type := { file_name : string; file_type : string }.

(** An element of the array the text-generation service returns, later
    spread into an object with an [icon].  Flashcards carry [answer],
    MCQs carry [options] and [correctAnswer]; the source keeps both kinds
    in the same variable ([parsedResponse]) and never inspects the shape,
    so a property that is absent is [None]. *)
Record Item : Type := {
  question : string;
  answer : option string;
  options : option (list string);
  correctAnswer : option string;
  icon : option string
}.

(** [newHistoryItem] of [handleGenerate].  [theme] is optional: a record
    read back from storage may lack it ([item.theme || 'default']). *)
Module HistoryItem.

Record t : Type := {
  id : Z;
  timestamp : string;
  inputType : InputType;
  generationMode : GenerationMode;
  inputContent : option string;
  generatedData : list Item;
  theme : option string
}.

End HistoryItem.

(** The [useState] cells of [App], in the order of the source. *)
Record AppState : Type := {
  (* Input State *)
  inputType : InputType;
  generationMode : GenerationMode;
  textContent : string;
  image : option File;
  imagePreview : option string;
  generateIcons : bool;
  (* Generation State *)
  flashcards : list Item;
  mcqs : list Item;
  isLoading : bool;
  loadingMessage : string;
  error : option string;
  (* Viewer State *)
  currentCard : Z;
  isFlipped : bool;
  (* MCQ State *)
  currentMcq : Z;
  selectedOption : option string;
  isAnswered : bool;
  score : Z;
  quizFinished : bool;
  (* History State *)
  history : list HistoryItem.t;
  isHistoryVisible : bool;
  (* UI State *)
  theme : string
}.

(** The state of the first render. *)
Definition initialState : AppState :=
  {| inputType := Text; generationMode := Flashcards; textContent := "";
     image := None; imagePreview := None; generateIcons := false;
     flashcards := []; mcqs := []; isLoading := false;
     loadingMessage := ""; error := None; currentCard := 0;
     isFlipped := false; currentMcq := 0; selectedOption := None;
     isAnswered := false; score := 0; quizFinished := false;
     history := []; isHistoryVisible := false; theme := "default" |}.

(** ** Setters: one per [useState] cell *)

Definition setInputType (v : InputType) (st : AppState) : AppState :=
  {| inputType := v; generationMode := generationMode st; textContent := textContent st;
     image := image st; imagePreview := imagePreview st; generateIcons := generateIcons st;
     flashcards := flashcards st; mcqs := mcqs st; isLoading := isLoading st;
     loadingMessage := loadingMessage st; error := error st; currentCard := currentCard st;
     isFlipped := isFlipped st; currentMcq := currentMcq st; selectedOption := selectedOption st;
     isAnswered := isAnswered st; score := score st; quizFinished := quizFinished st;
     history := history st; isHistoryVisible := isHistoryVisible st; theme := theme st |}.

Definition setGenerationMode (v : GenerationMode) (st : AppState) : AppState :=
  {| inputType := inputType st; generationMode := v; textContent := textContent st;
     image := image st; imagePreview := imagePreview st; generateIcons := generateIcons st;
     flashcards := flashcards st; mcqs := mcqs st; isLoading := isLoading st;
     loadingMessage := loadingMessage st; error := error st; currentCard := currentCard st;
     isFlipped := isFlipped st; currentMcq := currentMcq st; selectedOption := selectedOption st;
     isAnswered := isAnswered st; score := score st; quizFinished := quizFinished st;
     history := history st; isHistoryVisible := isHistoryVisible st; theme := theme st |}.

Definition setTextContent (v : string) (st : AppState) : AppState :=
  {| inputType := inputType st; generationMode := generationMode st; textContent := v;
     image := image st; imagePreview := imagePreview st; generateIcons := generateIcons st;
     flashcards := flashcards st; mcqs := mcqs st; isLoading := isLoading st;
     loadingMessage := loadingMessage st; error := error st; currentCard := currentCard st;
     isFlipped := isFlipped st; currentMcq := currentMcq st; selectedOption := selectedOption st;
     isAnswered := isAnswered st; score := score st; quizFinished := quizFinished st;
     history := history st; isHistoryVisible := isHistoryVisible st; theme := theme st |}.

Definition setImage (v : option File) (st : AppState) : AppState :=
  {| inputType := inputType st; generationMode := generationMode st; textContent := textContent st;
     image := v; imagePreview := imagePreview st; generateIcons := generateIcons st;
     flashcards := flashcards st; mcqs := mcqs st; isLoading := isLoading st;
     loadingMessage := loadingMessage st; error := error st; currentCard := currentCard st;
     isFlipped := isFlipped st; currentMcq := currentMcq st; selectedOption := selectedOption st;
     isAnswered := isAnswered st; score := score st; quizFinished := quizFinished st;
     history := history st; isHistoryVisible := isHistoryVisible st; theme := theme st |}.

Definition setImagePreview (v : option string) (st : AppState) : AppState :=
  {| inputType := inputType st; generationMode := generationMode st; textContent := textContent st;
     image := image st; imagePreview := v; generateIcons := generateIcons st;
     flashcards := flashcards st; mcqs := mcqs st; isLoading := isLoading st;
     loadingMessage := loadingMessage st; error := error st; currentCard := currentCard st;
     isFlipped := isFlipped st; currentMcq := currentMcq st; selectedOption := selectedOption st;
     isAnswered := isAnswered st; score := score st; quizFinished := quizFinished st;
     history := history st; isHistoryVisible := isHistoryVisible st; theme := theme st |}.

Definition setGenerateIcons (v : bool) (st : AppState) : AppState :=
  {| inputType := inputType st; generationMode := generationMode st; textContent := textContent st;
     image := image st; imagePreview := imagePreview st; generateIcons := v;
     flashcards := flashcards st; mcqs := mcqs st; isLoading := isLoading st;
     loadingMessage := loadingMessage st; error := error st; currentCard := currentCard st;
     isFlipped := isFlipped st; currentMcq := currentMcq st; selectedOption := selectedOption st;
     isAnswered := isAnswered st; score := score st; quizFinished := quizFinished st;
     history := history st; isHistoryVisible := isHistoryVisible st; theme := theme st |}.

Definition setFlashcards (v : list Item) (st : AppState) : AppState :=
  {| inputType := inputType st; generationMode := generationMode st; textContent := textContent st;
     image := image st; imagePreview := imagePreview st; generateIcons := generateIcons st;
     flashcards := v; mcqs := mcqs st; isLoading := isLoading st;
     loadingMessage := loadingMessage st; error := error st; currentCard := currentCard st;
     isFlipped := isFlipped st; currentMcq := currentMcq st; selectedOption := selectedOption st;
     isAnswered := isAnswered st; score := score st; quizFinished := quizFinished st;
     history := history st; isHistoryVisible := isHistoryVisible st; theme := theme st |}.

Definition setMcqs (v : list Item) (st : AppState) : AppState :=
  {| inputType := inputType st; generationMode := generationMode st; textContent := textContent st;
     image := image st; imagePreview := imagePreview st; generateIcons := generateIcons st;
     flashcards := flashcards st; mcqs := v; isLoading := isLoading st;
     loadingMessage := loadingMessage st; error := error st; currentCard := currentCard st;
     isFlipped := isFlipped st; currentMcq := currentMcq st; selectedOption := selectedOption st;
     isAnswered := isAnswered st; score := score st; quizFinished := quizFinished st;
     history := history st; isHistoryVisible := isHistoryVisible st; theme := theme st |}.

Definition setIsLoading (v : bool) (st : AppState) : AppState :=
  {| inputType := inputType st; generationMode := generationMode st; textContent := textContent st;
     image := image st; imagePreview := imagePreview st; generateIcons := generateIcons st;
     flashcards := flashcards st; mcqs := mcqs st; isLoading := v;
     loadingMessage := loadingMessage st; error := error st; currentCard := currentCard st;
     isFlipped := isFlipped st; currentMcq := currentMcq st; selectedOption := selectedOption st;
     isAnswered := isAnswered st; score := score st; quizFinished := quizFinished st;
     history := history st; isHistoryVisible := isHistoryVisible st; theme := theme st |}.

Definition setLoadingMessage (v : string) (st : AppState) : AppState :=
  {| inputType := inputType st; generationMode := generationMode st; textContent := textContent st;
     image := image st; imagePreview := imagePreview st; generateIcons := generateIcons st;
     flashcards := flashcards st; mcqs := mcqs st; isLoading := isLoading st;
     loadingMessage := v; error := error st; currentCard := currentCard st;
     isFlipped := isFlipped st; currentMcq := currentMcq st; selectedOption := selectedOption st;
     isAnswered := isAnswered st; score := score st; quizFinished := quizFinished st;
     history := history st; isHistoryVisible := isHistoryVisible st; theme := theme st |}.

Definition setError (v : option string) (st : AppState) : AppState :=
  {| inputType := inputType st; generationMode := generationMode st; textContent := textContent st;
     image := image st; imagePreview := imagePreview st; generateIcons := generateIcons st;
     flashcards := flashcards st; mcqs := mcqs st; isLoading := isLoading st;
     loadingMessage := loadingMessage st; error := v; currentCard := currentCard st;
     isFlipped := isFlipped st; currentMcq := currentMcq st; selectedOption := selectedOption st;
     isAnswered := isAnswered st; score := score st; quizFinished := quizFinished st;
     history := history st; isHistoryVisible := isHistoryVisible st; theme := theme st |}.

Definition setCurrentCard (v : Z) (st : AppState) : AppState :=
  {| inputType := inputType st; generationMode := generationMode st; textContent := textContent st;
     image := image st; imagePreview := imagePreview st; generateIcons := generateIcons st;
     flashcards := flashcards st; mcqs := mcqs st; isLoading := isLoading st;
     loadingMessage := loadingMessage st; error := error st; currentCard := v;
     isFlipped := isFlipped st; currentMcq := currentMcq st; selectedOption := selectedOption st;
     isAnswered := isAnswered st; score := score st; quizFinished := quizFinished st;
     history := history st; isHistoryVisible := isHistoryVisible st; theme := theme st |}.

Definition setIsFlipped (v : bool) (st : AppState) : AppState :=
  {| inputType := inputType st; generationMode := generationMode st; textContent := textContent st;
     image := image st; imagePreview := imagePreview st; generateIcons := generateIcons st;
     flashcards := flashcards st; mcqs := mcqs st; isLoading := isLoading st;
     loadingMessage := loadingMessage st; error := error st; currentCard := currentCard st;
     isFlipped := v; currentMcq := currentMcq st; selectedOption := selectedOption st;
     isAnswered := isAnswered st; score := score st; quizFinished := quizFinished st;
     history := history st; isHistoryVisible := isHistoryVisible st; theme := theme st |}.

Definition setCurrentMcq (v : Z) (st : AppState) : AppState :=
  {| inputType := inputType st; generationMode := generationMode st; textContent := textContent st;
     image := image st; imagePreview := imagePreview st; generateIcons := generateIcons st;
     flashcards := flashcards st; mcqs := mcqs st; isLoading := isLoading st;
     loadingMessage := loadingMessage st; error := error st; currentCard := currentCard st;
     isFlipped := isFlipped st; currentMcq := v; selectedOption := selectedOption st;
     isAnswered := isAnswered st; score := score st; quizFinished := quizFinished st;
     history := history st; isHistoryVisible := isHistoryVisible st; theme := theme st |}.

Definition setSelectedOption (v : option string) (st : AppState) : AppState :=
  {| inputType := inputType st; generationMode := generationMode st; textContent := textContent st;
     image := image st; imagePreview := imagePreview st; generateIcons := generateIcons st;
     flashcards := flashcards st; mcqs := mcqs st; isLoading := isLoading st;
     loadingMessage := loadingMessage st; error := error st; currentCard := currentCard st;
     isFlipped := isFlipped st; currentMcq := currentMcq st; selectedOption := v;
     isAnswered := isAnswered st; score := score st; quizFinished := quizFinished st;
     history := history st; isHistoryVisible := isHistoryVisible st; theme := theme st |}.

Definition setIsAnswered (v : bool) (st : AppState) : AppState :=
  {| inputType := inputType st; generationMode := generationMode st; textContent := textContent st;
     image := image st; imagePreview := imagePreview st; generateIcons := generateIcons st;
     flashcards := flashcards st; mcqs := mcqs st; isLoading := isLoading st;
     loadingMessage := loadingMessage st; error := error st; currentCard := currentCard st;
     isFlipped := isFlipped st; currentMcq := currentMcq st; selectedOption := selectedOption st;
     isAnswered := v; score := score st; quizFinished := quizFinished st;
     history := history st; isHistoryVisible := isHistoryVisible st; theme := theme st |}.

Definition setScore (v : Z) (st : AppState) : AppState :=
  {| inputType := inputType st; generationMode := generationMode st; textContent := textContent st;
     image := image st; imagePreview := imagePreview st; generateIcons := generateIcons st;
     flashcards := flashcards st; mcqs := mcqs st; isLoading := isLoading st;
     loadingMessage := loadingMessage st; error := error st; currentCard := currentCard st;
     isFlipped := isFlipped st; currentMcq := currentMcq st; selectedOption := selectedOption st;
     isAnswered := isAnswered st; score := v; quizFinished := quizFinished st;
     history := history st; isHistoryVisible := isHistoryVisible st; theme := theme st |}.

Definition setQuizFinished (v : bool) (st : AppState) : AppState :=
  {| inputType := inputType st; generationMode := generationMode st; textContent := textContent st;
     image := image st; imagePreview := imagePreview st; generateIcons := generateIcons st;
     flashcards := flashcards st; mcqs := mcqs st; isLoading := isLoading st;
     loadingMessage := loadingMessage st; error := error st; currentCard := currentCard st;
     isFlipped := isFlipped st; currentMcq := currentMcq st; selectedOption := selectedOption st;
     isAnswered := isAnswered st; score := score st; quizFinished := v;
     history := history st; isHistoryVisible := isHistoryVisible st; theme := theme st |}.

Definition setHistory (v : list HistoryItem.t) (st : AppState) : AppState :=
  {| inputType := inputType st; generationMode := generationMode st; textContent := textContent st;
     image := image st; imagePreview := imagePreview st; generateIcons := generateIcons st;
     flashcards := flashcards st; mcqs := mcqs st; isLoading := isLoading st;
     loadingMessage := loadingMessage st; error := error st; currentCard := currentCard st;
     isFlipped := isFlipped st; currentMcq := currentMcq st; selectedOption := selectedOption st;
     isAnswered := isAnswered st; score := score st; quizFinished := quizFinished st;
     history := v; isHistoryVisible := isHistoryVisible st; theme := theme st |}.

Definition setIsHistoryVisible (v : bool) (st : AppState) : AppState :=
  {| inputType := inputType st; generationMode := generationMode st; textContent := textContent st;
     image := image st; imagePreview := imagePreview st; generateIcons := generateIcons st;
     flashcards := flashcards st; mcqs := mcqs st; isLoading := isLoading st;
     loadingMessage := loadingMessage st; error := error st; currentCard := currentCard st;
     isFlipped := isFlipped st; currentMcq := currentMcq st; selectedOption := selectedOption st;
     isAnswered := isAnswered st; score := score st; quizFinished := quizFinished st;
     history := history st; isHistoryVisible := v; theme := theme st |}.

Definition setTheme (v : string) (st : AppState) : AppState :=
  {| inputType := inputType st; generationMode := generationMode st; textContent := textContent st;
     image := image st; imagePreview := imagePreview st; generateIcons := generateIcons st;
     flashcards := flashcards st; mcqs := mcqs st; isLoading := isLoading st;
     loadingMessage := loadingMessage st; error := error st; currentCard := currentCard st;
     isFlipped := isFlipped st; currentMcq := currentMcq st; selectedOption := selectedOption st;
     isAnswered := isAnswered st; score := score st; quizFinished := quizFinished st;
     history := history st; isHistoryVisible := isHistoryVisible st; theme := v |}.

(** ** JavaScript helpers *)

(** [!s] on a string: only the empty string is falsy. *)
Definition falsy (s : string) : bool := String.eqb s "".

(** [!v] on an object reference that may be [null]. *)
Definition isNull {A : Type} (v : option A) : bool :=
  match v with None => true | Some _ => false end.

(** [a === b] between a string and a property that may be missing. *)
Definition strictEq (a : string) (b : option string) : bool :=
  match b with Some s => String.eqb a s | None => false end.

(** [t || 'default'] on a string that may be missing. *)
Definition orDefault (t : option string) : string :=
  match t with
  | Some s => if falsy s then "default" else s
  | None => "default"
  end.

(** [inputType === "text"], [inputType === "image"] *)
Definition isInputType (expected actual : InputType) : bool :=
  match expected, actual with
  | Text, Text | Image, Image => true
  | _, _ => false
  end.

(** [xs.length] *)
Definition len {A : Type} (xs : list A) : Z := Z.of_nat (length xs).

(** [xs[i]]: [undefined] outside the array. *)
Definition at_index {A : Type} (xs : list A) (i : Z) : option A :=
  if i <? 0 then None else nth_error xs (Z.to_nat i).

(** [s.split(",")[1]]: the text between the first comma and the next
    one; [undefined] when [s] has no comma. *)
Fixpoint afterComma (s : string) : option string :=
  match s with
  | EmptyString => None
  | String ch rest => if Ascii.eqb ch "," then Some rest else afterComma rest
  end.

Fixpoint untilComma (s : string) : string :=
  match s with
  | EmptyString => EmptyString
  | String ch rest => if Ascii.eqb ch "," then EmptyString else String ch (untilComma rest)
  end.

Definition splitComma1 (s : string) : option string :=
  option_map untilComma (afterComma s).

(** ** Collaborators *)

(** What a handler can throw or a promise can reject with. *)
Inductive Exn : Type :=
| ServiceRejection              (* [generateContent] rejected *)
| SyntaxError                   (* [JSON.parse] *)
| IconRejection (index : nat)   (* the [generateImages] call of that item rejected *)
| TypeError                     (* property read on [undefined] or [null] *)
| QuotaExceededError.           (* [localStorage.setItem] *)

(** Outcome of awaiting a promise. *)
Inductive Await (A : Type) : Type :=
| Fulfilled (a : A)
| RejectedWith (e : Exn)
| NeverSettles.
Arguments Fulfilled {A} a.
Arguments RejectedWith {A} e.
Arguments NeverSettles {A}.

(** [JSON.parse(response.text)]: the parser is the language's own; the
    response text is represented by what the parser makes of it.  The
    request carries a [responseSchema] asking for an array of objects. *)
Inductive Parsed : Type :=
| ParseThrows
| ParsedNull
| ParsedArray (items : list Item).

Inductive TextResponse : Type :=
| TextRejected
| TextResolved (text : Parsed).

(** One [generateImages] response: [generatedImages], each element
    standing for its [image.imageBytes]. *)
Inductive IconResponse : Type :=
| IconRejected
| IconResolved (generatedImages : list string).

(** Everything outside the component that one handler run depends on. *)
Record World : Type := {
  readerResult : option string;          (* [reader.result]; [null] when the read failed *)
  generateContent : TextResponse;        (* [ai.models.generateContent] *)
  generateImages : nat -> IconResponse;  (* [ai.models.generateImages], per item index *)
  setItemThrows : bool;                  (* [localStorage.setItem] throws *)
  dateNow : Z;                           (* [Date.now()] *)
  toISOString : string                   (* [new Date().toISOString()] *)
}.

(** [localStorage]: the two entries the component uses.  The history
    entry holds [JSON.stringify(updatedHistory)], represented by the list
    it serialises; [Unparseable] is a non-empty text [JSON.parse] rejects. *)
Inductive StoredHistory : Type :=
| Unparseable
| Serialized (records : list HistoryItem.t).

Record Storage : Type := {
  studyAppHistory : option StoredHistory;
  studyAppTheme : option string
}.

(** The parts of [contents.parts]. *)
Inductive Part : Type :=
| TextPart (text : string)
| InlineData (data : option string) (mimeType : string).

(** What a run does to the outside, in order. *)
Inductive Effect : Type :=
| CallGenerateContent (mode : GenerationMode) (parts : list Part)
| CallGenerateImages (prompt : string)
| ConsoleError (e : Exn)
| Uncaught (e : Exn).

(** The closure of the callback [navigateCard] hands to [setTimeout]:
    [direction] and the [flashcards.length] of the render of the click. *)
Record Timeout : Type := { direction : Z; flashcardsLength : Z }.

(** The component together with its surroundings. *)
Record Config : Type := {
  app : AppState;
  storage : Storage;
  timers : list Timeout;
  effects : list Effect
}.

Definition update (f : AppState -> AppState) (c : Config) : Config :=
  {| app := f (app c); storage := storage c; timers := timers c; effects := effects c |}.

Definition log (e : Effect) (c : Config) : Config :=
  {| app := app c; storage := storage c; timers := timers c; effects := effects c ++ [e] |}.

Definition logAll (es : list Effect) (c : Config) : Config :=
  {| app := app c; storage := storage c; timers := timers c; effects := effects c ++ es |}.

Definition setStorage (s : Storage) (c : Config) : Config :=
  {| app := app c; storage := s; timers := timers c; effects := effects c |}.

Definition setTimers (ts : list Timeout) (c : Config) : Config :=
  {| app := app c; storage := storage c; timers := ts; effects := effects c |}.

(** ** Mount effect and theme *)

(** The first [useEffect]: history, then theme, inside one [try]. *)
Definition loadFromStorage (c : Config) : Config :=
  match studyAppHistory (storage c) with
  | Some Unparseable => c |> log (ConsoleError SyntaxError)
  | storedHistory =>
      let c := match storedHistory with
               | Some (Serialized records) => c |> update (setHistory records)
               | _ => c
               end in
      match studyAppTheme (storage c) with
      | Some storedTheme =>
          if falsy storedTheme then c else c |> update (setTheme storedTheme)
      | None => c
      end
  end.

Definition handleThemeChange (selectedTheme : string) (w : World) (c : Config) : Config :=
  let c := c |> update (setTheme selectedTheme) in
  if setItemThrows w then c |> log (Uncaught QuotaExceededError)
  else c |> setStorage {| studyAppHistory := studyAppHistory (storage c);
                          studyAppTheme := Some selectedTheme |}.

(** ** The generation pipeline: [handleGenerate] *)

Definition mcqPrompt : string :=
  "Based on the following content, generate a set of multiple-choice questions (MCQs) for studying. Each MCQ should have a 'question', an array of four 'options', and the 'correctAnswer'. The 'correctAnswer' must be one of the strings from the 'options' array. Return the result as a JSON array of objects.".

Definition flashcardPrompt : string :=
  "Based on the following content, generate a concise set of flashcards for studying. Each flashcard should have a 'question' and an 'answer'. Return the result as a JSON array of objects, where each object has a 'question' and 'answer' key.".

Definition iconPrompt (item : Item) : string :=
  ("A simple, clean, minimalist vector icon representing '" ++ question item
     ++ "'. Flat design on a plain background.")%string.

Definition msgNoContent : string := "Please provide some content to generate.".
Definition msgCouldNotGenerate : string :=
  "Could not generate content. Please try again with a different source.".
Definition msgGenerateFailed : string :=
  "An error occurred while generating. Please check the console for details.".

(** [fileToGenerativePart].  The promise resolves from [onloadend]; when
    the read failed [reader.result] is [null], the callback throws before
    [resolve] and the promise stays pending. *)
Definition fileToGenerativePart (file : option File) (w : World) : Await Part :=
  match file with
  | None => RejectedWith TypeError
  | Some f =>
      match readerResult w with
      | None => NeverSettles
      | Some dataURL => Fulfilled (InlineData (splitComma1 dataURL) (file_type f))
      end
  end.

(** The guard on the first line of [handleGenerate] (the button's
    [disabled] repeats it). *)
Definition emptyInput (st : AppState) : bool :=
  (isInputType Text (inputType st) && falsy (textContent st))
  || (isInputType Image (inputType st) && isNull (image st)).

(** Lines 85 to 98: the updates queued before the first [await]. *)
Definition handleGenerate_reset (st : AppState) : AppState :=
  st |> setIsLoading true
     |> setLoadingMessage "Generating text content..."
     |> setError None
     |> setFlashcards []
     |> setMcqs []
     |> setCurrentCard 0
     |> setIsFlipped false
     |> setCurrentMcq 0
     |> setSelectedOption None
     |> setIsAnswered false
     |> setScore 0
     |> setQuizFinished false.

(** [{...item, icon: `data:image/png;base64,${...}`}] *)
Definition withIcon (item : Item) (imageBytes : string) : Item :=
  {| question := question item; answer := answer item; options := options item;
     correctAnswer := correctAnswer item;
     icon := Some ("data:image/png;base64," ++ imageBytes)%string |}.

(** The second [map]: element [index] takes
    [iconResponses[index].generatedImages[0]]; a missing response or an
    empty [generatedImages] is a [TypeError]. *)
Fixpoint attachIcons (parsedResponse : list Item) (iconResponses : list IconResponse)
  : Exn + list Item :=
  match parsedResponse, iconResponses with
  | [], _ => inr []
  | item :: items, IconResolved (imageBytes :: _) :: responses =>
      match attachIcons items responses with
      | inr enriched => inr (withIcon item imageBytes :: enriched)
      | inl e => inl e
      end
  | _ :: _, _ => inl TypeError
  end.

(** [Promise.all]: rejects as soon as one promise rejects.  Settling
    order is taken to be index order. *)
Fixpoint firstRejected (index : nat) (responses : list IconResponse) : option nat :=
  match responses with
  | [] => None
  | IconRejected :: _ => Some index
  | IconResolved _ :: rest => firstRejected (S index) rest
  end.

Definition iconResponsesOf (w : World) (parsedResponse : list Item) : list IconResponse :=
  map (generateImages w) (seq 0 (length parsedResponse)).

(** Step 2 of the source, once the requests are out. *)
Definition enrich (w : World) (parsedResponse : list Item) : Exn + list Item :=
  let iconResponses := iconResponsesOf w parsedResponse in
  match firstRejected 0 iconResponses with
  | Some index => inl (IconRejection index)
  | None => attachIcons parsedResponse iconResponses
  end.

(** How a [try] block ends. *)
Inductive Completion : Type :=
| Completed
| Threw (e : Exn)
| Suspended.

Definition newHistoryItem (cl : AppState) (w : World) (parsedResponse : list Item)
  : HistoryItem.t :=
  {| HistoryItem.id := dateNow w;
     HistoryItem.timestamp := toISOString w;
     HistoryItem.inputType := inputType cl;
     HistoryItem.generationMode := generationMode cl;
     HistoryItem.inputContent :=
       match inputType cl with
       | Text => Some (textContent cl)
       | Image => imagePreview cl
       end;
     HistoryItem.generatedData := parsedResponse;
     HistoryItem.theme := Some (theme cl) |}.

(** Lines 177 to 195: show the items, then step 3. *)
Definition showAndSave (cl : AppState) (w : World) (parsedResponse : list Item)
  (c : Config) : Config * Completion :=
  let c := match generationMode cl with
           | MCQs => c |> update (setMcqs parsedResponse)
           | Flashcards => c |> update (setFlashcards parsedResponse)
           end in
  let updatedHistory := newHistoryItem cl w parsedResponse :: history cl in
  let c := c |> update (setHistory updatedHistory) in
  if setItemThrows w then (c, Threw QuotaExceededError)
  else (c |> setStorage {| studyAppHistory := Some (Serialized updatedHistory);
                           studyAppTheme := studyAppTheme (storage c) |},
        Completed).

(** Lines 158 to 198: the branch on the parsed response. *)
Definition handleParsed (cl : AppState) (w : World) (parsedResponse : Parsed)
  (c : Config) : Config * Completion :=
  match parsedResponse with
  | ParseThrows => (c, Threw SyntaxError)
  | ParsedNull => (c |> update (setError (Some msgCouldNotGenerate)), Completed)
  | ParsedArray items =>
      if 0 <? len items then
        if generateIcons cl then
          let c := c |> update (setLoadingMessage "Generating icons (this may take a moment)...")
                     |> logAll (map (fun item => CallGenerateImages (iconPrompt item)) items) in
          match enrich w items with
          | inl e => (c, Threw e)
          | inr enriched => showAndSave cl w enriched c
          end
        else showAndSave cl w items c
      else (c |> update (setError (Some msgCouldNotGenerate)), Completed)
  end.

(** Step 1 of the source, first half: the part made of the input. *)
Definition contentPart (cl : AppState) (w : World) : Await Part :=
  match inputType cl with
  | Image => fileToGenerativePart (image cl) w
  | Text => Fulfilled (TextPart (textContent cl))
  end.

Definition promptOf (mode : GenerationMode) : string :=
  match mode with
  | MCQs => mcqPrompt
  | Flashcards => flashcardPrompt
  end.

(** The body of the [try]: [cl] is the render the handler closes over,
    [c] the configuration its updates go to. *)
Definition handleGenerate_try (cl : AppState) (w : World) (c : Config)
  : Config * Completion :=
  match contentPart cl w with
  | NeverSettles => (c |> log (Uncaught TypeError), Suspended)
  | RejectedWith e => (c, Threw e)
  | Fulfilled part =>
      let prompt := promptOf (generationMode cl) in
      let c := c |> log (CallGenerateContent (generationMode cl) [part; TextPart prompt]) in
      match generateContent w with
      | TextRejected => (c, Threw ServiceRejection)
      | TextResolved text => handleParsed cl w text c
      end
  end.

Definition handleGenerate_finally (c : Config) : Config :=
  c |> update (setIsLoading false) |> update (setLoadingMessage "").

Definition handleGenerate_catch (e : Exn) (c : Config) : Config :=
  c |> log (ConsoleError e) |> update (setError (Some msgGenerateFailed)).

Definition handleGenerate (w : World) (c : Config) : Config :=
  let cl := app c in
  if emptyInput cl then c |> update (setError (Some msgNoContent))
  else
    match handleGenerate_try cl w (c |> update handleGenerate_reset) with
    | (c, Completed) => c |> handleGenerate_finally
    | (c, Threw e) => c |> handleGenerate_catch e |> handleGenerate_finally
    | (c, Suspended) => c
    end.

(** ** Input handlers *)

(** [handleImageChange]: [file] is [e.target.files[0]]; the preview is
    set from [onloadend]. *)
Definition handleImageChange (file : option File) (w : World) (st : AppState) : AppState :=
  match file with
  | Some f =>
      st |> setImage (Some f) |> setError None |> setImagePreview (readerResult w)
  | None => st
  end.

Definition resetInput (st : AppState) : AppState :=
  st |> setTextContent ""
     |> setImage None
     |> setImagePreview None
     |> setFlashcards []
     |> setMcqs []
     |> setError None.

Definition changeInputType (type : InputType) (st : AppState) : AppState :=
  st |> setInputType type |> resetInput.

Definition changeGenerationMode (mode : GenerationMode) (st : AppState) : AppState :=
  st |> setGenerationMode mode |> resetInput.

(** ** Flashcard viewer *)

(** [navigateCard], the synchronous half: flip back, arm the timer. *)
Definition navigateCard (dir : Z) (c : Config) : Config :=
  c |> update (setIsFlipped false)
    |> setTimers (timers c ++ [{| direction := dir;
                                  flashcardsLength := len (flashcards (app c)) |}]).

(** The updater the timer passes to [setCurrentCard]. *)
Definition navigateCard_updater (t : Timeout) (prev : Z) : Z :=
  let next := prev + direction t in
  if (0 <=? next) && (next <? flashcardsLength t) then next else prev.

(** The oldest pending timer fires (all have the same delay). *)
Definition timerFires (c : Config) : Config :=
  match timers c with
  | [] => c
  | t :: pending =>
      c |> update (fun st => setCurrentCard (navigateCard_updater t (currentCard st)) st)
        |> setTimers pending
  end.

(** The card's [onClick]. *)
Definition flipCard (st : AppState) : AppState :=
  st |> setIsFlipped (negb (isFlipped st)).

(** ** MCQ quiz *)

(** [handleOptionClick].  When [mcqs[currentMcq]] is [undefined] the
    read of [correctAnswer] throws a [TypeError] after the first two
    updates were queued. *)
Definition handleOptionClick (opt : string) (st : AppState) : AppState :=
  if isAnswered st then st
  else
    let st' := st |> setIsAnswered true |> setSelectedOption (Some opt) in
    match at_index (mcqs st) (currentMcq st) with
    | Some q =>
        if strictEq opt (correctAnswer q) then st' |> setScore (score st + 1) else st'
    | None => st'
    end.

Definition handleOptionClick_throws (st : AppState) : bool :=
  negb (isAnswered st) && isNull (at_index (mcqs st) (currentMcq st)).

Definition handleNextQuestion (st : AppState) : AppState :=
  if currentMcq st <? len (mcqs st) - 1 then
    st |> setCurrentMcq (currentMcq st + 1)
       |> setIsAnswered false
       |> setSelectedOption None
  else
    st |> setQuizFinished true.

Definition restartQuiz (st : AppState) : AppState :=
  st |> setCurrentMcq 0
     |> setSelectedOption None
     |> setIsAnswered false
     |> setScore 0
     |> setQuizFinished false.

(** ** History *)

Definition handleViewHistoryItem (item : HistoryItem.t) (st : AppState) : AppState :=
  let st := st |> setError None
               |> setGenerationMode (HistoryItem.generationMode item)
               |> setTheme (orDefault (HistoryItem.theme item)) in
  let st := match HistoryItem.generationMode item with
            | Flashcards =>
                st |> setFlashcards (HistoryItem.generatedData item)
                   |> setMcqs []
                   |> setCurrentCard 0
                   |> setIsFlipped false
            | MCQs =>
                st |> setMcqs (HistoryItem.generatedData item)
                   |> setFlashcards []
                   |> restartQuiz
            end in
  st |> setIsHistoryVisible false.

Definition handleClearHistory (c : Config) : Config :=
  c |> update (setHistory [])
    |> setStorage {| studyAppHistory := None; studyAppTheme := studyAppTheme (storage c) |}.

(** ** Events *)

(** Everything the component reacts to: the mount effect, the controls
    of the rendered page and the timer. *)
Inductive Event : Type :=
| Mount
| ThemeChange (selectedTheme : string)
| GenerateClick
| ImageChange (file : option File)
| TextChange (value : string)
| IconsToggle (checked : bool)
| InputTypeClick (type : InputType)
| GenerationModeClick (mode : GenerationMode)
| NavigateClick (dir : Z)
| TimerFires
| CardClick
| OptionClick (opt : string)
| NextClick
| TryAgainClick
| HistoryOpen
| HistoryClose
| HistoryItemClick (item : HistoryItem.t)
| ClearHistoryClick.

Definition dispatch (w : World) (ev : Event) (c : Config) : Config :=
  match ev with
  | Mount => loadFromStorage c
  | ThemeChange selectedTheme => handleThemeChange selectedTheme w c
  | GenerateClick => handleGenerate w c
  | ImageChange file => c |> update (handleImageChange file w)
  | TextChange value => c |> update (setTextContent value)
  | IconsToggle checked => c |> update (setGenerateIcons checked)
  | InputTypeClick type => c |> update (changeInputType type)
  | GenerationModeClick mode => c |> update (changeGenerationMode mode)
  | NavigateClick dir => navigateCard dir c
  | TimerFires => timerFires c
  | CardClick => c |> update flipCard
  | OptionClick opt =>
      let c' := c |> update (handleOptionClick opt) in
      if handleOptionClick_throws (app c) then c' |> log (Uncaught TypeError) else c'
  | NextClick => c |> update handleNextQuestion
  | TryAgainClick => c |> update restartQuiz
  | HistoryOpen => c |> update (setIsHistoryVisible true)
  | HistoryClose => c |> update (setIsHistoryVisible false)
  | HistoryItemClick item => c |> update (handleViewHistoryItem item)
  | ClearHistoryClick => handleClearHistory c
  end.

(** A sequence of events, the world answering each of them. *)
Fixpoint run (w : World) (evs : list Event) (c : Config) : Config :=
  match evs with
  | [] => c
  | ev :: rest => run w rest (dispatch w ev c)
  end.

(** The configuration of the first render, over a given storage. *)
Definition initialConfig (s : Storage) : Config :=
  {| app := initialState; storage := s; timers := []; effects := [] |}.

(** ** What the page offers *)

(** The clickable controls of [renderMCQs], as the events they fire: the
    summary has only the try-again button; a question shows its option
    buttons (disabled once answered) and, once answered, the next button. *)
Definition renderMCQs (st : AppState) : list Event :=
  if quizFinished st then [TryAgainClick]
  else
    match at_index (mcqs st) (currentMcq st) with
    | Some currentQuestion =>
        if isAnswered st then [NextClick]
        else map OptionClick (match options currentQuestion with
                              | Some os => os
                              | None => []
                              end)
    | None => []
    end.

(** The state [restartQuiz] and [handleGenerate] put the quiz in. *)
Definition quizInitial (st : AppState) : Prop :=
  currentMcq st = 0 /\ selectedOption st = None /\ isAnswered st = false
  /\ score st = 0 /\ quizFinished st = false.

(** The transitions of the quiz: answering, advancing and restarting.
    Advancing is available in an answered question only: the next
    button is rendered under [isAnswered &&]. *)
Inductive quizStep : AppState -> AppState -> Prop :=
| selectOption_step (opt : string) (st : AppState) :
    quizStep st (handleOptionClick opt st)
| next_step (st : AppState) :
    isAnswered st = true -> quizStep st (handleNextQuestion st)
| restart_step (st : AppState) :
    quizStep st (restartQuiz st).

Inductive quizReach (st0 : AppState) : AppState -> Prop :=
| reach_start : quizReach st0 st0
| reach_step (st st' : AppState) :
    quizReach st0 st -> quizStep st st' -> quizReach st0 st'.

(** The invariant carried along a quiz. *)
Definition quizInv (st : AppState) : Prop :=
  0 <= currentMcq st < len (mcqs st)
  /\ 0 <= score st
  /\ score st + (if isAnswered st then 0 else 1) <= currentMcq st + 1
  /\ (quizFinished st = true -> currentMcq st = len (mcqs st) - 1 /\ isAnswered st = true).

(** The flashcard events of the viewer: a click on one of the two
    arrows, or the timer of an earlier click. *)
Definition navEvent (ev : Event) : Prop :=
  ev = NavigateClick (-1) \/ ev = NavigateClick 1 \/ ev = TimerFires.

(** The MCQ item invariant of the data model. *)
Definition wellFormedMCQ (item : Item) : Prop :=
  exists os answer,
    options item = Some os /\ correctAnswer item = Some answer
    /\ In answer os /\ length os = 4%nat /\ NoDup os.

(** A produced item carries the quiz fields of the served one. *)
Definition sameQuizFields (produced served : Item) : Prop :=
  question produced = question served
  /\ options produced = options served
  /\ correctAnswer produced = correctAnswer served.

(** [handleGenerate] went through: nothing pending, no error shown. *)
Definition succeeded (c : Config) : Prop :=
  isLoading (app c) = false /\ error (app c) = None.

(** The quiz cells at a glance: index, answered flag, score, finished
    flag, over a given list of questions. *)
Definition quizAt (st : AppState) (index : Z) (answered : bool) (points : Z)
  (finished : bool) (questions : list Item) : Prop :=
  currentMcq st = index /\ isAnswered st = answered /\ score st = points
  /\ quizFinished st = finished /\ mcqs st = questions.

(** The invariant carried along flashcard navigation over a deck of
    [deckLength] cards: the index is in range and every pending timer saw
    that deck; the effects are those of the start. *)
Definition navInv (deckLength : Z) (done : list Effect) (c : Config) : Prop :=
  0 <= currentCard (app c) < deckLength
  /\ len (flashcards (app c)) = deckLength
  /\ Forall (fun t => flashcardsLength t = deckLength) (timers c)
  /\ effects c = done.

(** What [resetInput] leaves behind, and what it does not touch. *)
Definition inputCleared (before after : Config) : Prop :=
  textContent (app after) = ""
  /\ image (app after) = None
  /\ imagePreview (app after) = None
  /\ flashcards (app after) = []
  /\ mcqs (app after) = []
  /\ error (app after) = None
  /\ history (app after) = history (app before)
  /\ theme (app after) = theme (app before)
  /\ storage after = storage before.

(** ** The rest of the page *)

(** [generationMode === 'flashcards'], [generationMode === 'mcqs'] *)
Definition isMode (expected actual : GenerationMode) : bool :=
  match expected, actual with
  | Flashcards, Flashcards | MCQs, MCQs => true
  | _, _ => false
  end.

(** The [disabled] attribute of the generate button. *)
Definition generateDisabled (st : AppState) : bool :=
  isLoading st
  || (isInputType Text (inputType st) && falsy (textContent st))
  || (isInputType Image (inputType st) && isNull (image st)).

(** The two guards at the end of the returned tree. *)
Definition flashcardsShown (st : AppState) : bool :=
  (0 <? len (flashcards st)) && negb (isLoading st) && isMode Flashcards (generationMode st).

Definition mcqsShown (st : AppState) : bool :=
  (0 <? len (mcqs st)) && negb (isLoading st) && isMode MCQs (generationMode st).

(** The clickable controls of [renderFlashcards]: the card, and the two
    arrows unless [disabled] (previous on the first card, next on the last
    one).  The function reads [card.icon]: without a card at
    [currentCard] it throws. *)
Definition renderFlashcards (st : AppState) : list Event :=
  match at_index (flashcards st) (currentCard st) with
  | Some card =>
      CardClick
        :: (if currentCard st =? 0 then [] else [NavigateClick (-1)])
        ++ (if currentCard st =? len (flashcards st) - 1 then [] else [NavigateClick 1])
  | None => []
  end.

(** The clickable controls of [renderHistoryPanel]. *)
Definition renderHistoryPanel (st : AppState) : list Event :=
  HistoryClose
    :: map HistoryItemClick (history st)
    ++ (if len (history st) =? 0 then [] else [ClearHistoryClick]).


(** The options of the theme selector. *)
Definition themeOptions : list string := ["default"; "dark"; "ocean"; "sunset"].

(** The events the rendered page can fire in a given state.  The mount
    effect runs once, before any of them; a timer may fire at any time. *)
Definition offered (st : AppState) (ev : Event) : Prop :=
  match ev with
  | Mount => False
  | ThemeChange selectedTheme => In selectedTheme themeOptions
  | GenerateClick => generateDisabled st = false
  | ImageChange _ => inputType st = Image
  | TextChange _ => inputType st = Text
  | IconsToggle _ | InputTypeClick _ | GenerationModeClick _ | HistoryOpen | TimerFires => True
  | NavigateClick _ | CardClick =>
      flashcardsShown st = true /\ In ev (renderFlashcards st)
  | OptionClick _ | NextClick | TryAgainClick =>
      mcqsShown st = true /\ In ev (renderMCQs st)
  | HistoryClose | HistoryItemClick _ | ClearHistoryClick =>
      isHistoryVisible st = true /\ In ev (renderHistoryPanel st)
  end.


(** The input cells, the panel flag and the theme are as before. *)
Definition inputsKept (before after : AppState) : Prop :=
  inputType after = inputType before
  /\ generationMode after = generationMode before
  /\ textContent after = textContent before
  /\ image after = image before
  /\ imagePreview after = imagePreview before
  /\ generateIcons after = generateIcons before
  /\ isHistoryVisible after = isHistoryVisible before
  /\ theme after = theme before.

(** Both viewers are where they start: first card, front shown, quiz
    at its first question. *)
Definition viewersInitial (st : AppState) : Prop :=
  currentCard st = 0 /\ isFlipped st = false /\ quizInitial st.


(** The index the viewer ends on once every pending timer has fired. *)
Definition settledCard (c : Config) : Z :=
  fold_left (fun index t => navigateCard_updater t index) (timers c) (currentCard (app c)).

(** One bounded move over a deck of [deckLength] cards. *)
Definition clampMove (deckLength : Z) (index dir : Z) : Z :=
  navigateCard_updater {| direction := dir; flashcardsLength := deckLength |} index.

(** The directions of the arrow clicks of a sequence of events. *)
Definition clickDirections (evs : list Event) : list Z :=
  flat_map (fun ev => match ev with NavigateClick dir => [dir] | _ => [] end) evs.

(** Answering every question in turn: an option, then the next button. *)
Definition answerAll (answers : list string) : list Event :=
  flat_map (fun opt => [OptionClick opt; NextClick]) answers.

(** How many of the answers are the [correctAnswer] of their question. *)
Fixpoint correctCount (questions : list Item) (answers : list string) : Z :=
  match questions, answers with
  | q :: questions', opt :: answers' =>
      (if strictEq opt (correctAnswer q) then 1 else 0) + correctCount questions' answers'
  | _, _ => 0
  end.

(** A string without a comma. *)
Fixpoint noComma (s : string) : bool :=
  match s with
  | EmptyString => true
  | String ch rest => negb (Ascii.eqb ch ",") && noComma rest
  end.

(** The items are on the page, in the list of the mode, the other list
    being empty. *)
Definition shownAs (mode : GenerationMode) (produced : list Item) (st : AppState) : Prop :=
  match mode with
  | MCQs => mcqs st = produced /\ flashcards st = []
  | Flashcards => flashcards st = produced /\ mcqs st = []
  end.

(** A run of [handleGenerate] that shows and saves nothing: it either
    never settles or ends with an error message. *)
Definition generateAborted (c c' : Config) : Prop :=
  flashcards (app c') = []
  /\ mcqs (app c') = []
  /\ history (app c') = history (app c)
  /\ storage c' = storage c
  /\ (isLoading (app c') = true \/ error (app c') <> None).

(** A run of [handleGenerate] that shows [produced] and records it; the
    write-through either succeeds or throws. *)
Definition generateProduced (w : World) (c c' : Config) (produced : list Item) : Prop :=
  produced <> []
  /\ shownAs (generationMode (app c)) produced (app c')
  /\ history (app c') = newHistoryItem (app c) w produced :: history (app c)
  /\ isLoading (app c') = false
  /\ ((setItemThrows w = false
       /\ error (app c') = None
       /\ storage c' = {| studyAppHistory := Some (Serialized (history (app c')));
                          studyAppTheme := studyAppTheme (storage c) |})
      \/ (setItemThrows w = true
          /\ error (app c') = Some msgGenerateFailed
          /\ storage c' = storage c)).


(** ** Sample data *)

Definition franceItem : Item :=
  {| question := "Capital of France?"; answer := None;
     options := Some ["Paris"; "Lyon"; "Nice"; "Lille"];
     correctAnswer := Some "Paris"; icon := None |}.

Definition exampleWorld : World :=
  {| readerResult := None; generateContent := TextResolved (ParsedArray [franceItem]);
     generateImages := fun _ => IconResolved ["iVBOR"]; setItemThrows := false;
     dateNow := 1700000000000; toISOString := "2023-11-14T22:13:20.000Z" |}.

Definition emptyStorage : Storage :=
  {| studyAppHistory := None; studyAppTheme := None |}.

(** A one-question quiz, as [handleGenerate] leaves it. *)
Definition quizStart : AppState :=
  initialState |> setGenerationMode MCQs |> setMcqs [franceItem].

Definition quizConfig : Config :=
  {| app := quizStart; storage := emptyStorage; timers := []; effects := [] |}.

Definition romeItem : Item :=
  {| question := "Capital of Italy?"; answer := None;
     options := Some ["Milan"; "Rome"; "Turin"; "Naples"];
     correctAnswer := Some "Rome"; icon := None |}.

Definition bernItem : Item :=
  {| question := "Capital of Switzerland?"; answer := None;
     options := Some ["Zurich"; "Geneva"; "Bern"; "Basel"];
     correctAnswer := Some "Bern"; icon := None |}.

(** A three-question quiz at its start. *)
Definition quiz3Config : Config :=
  {| app := initialState |> setGenerationMode MCQs
                         |> setMcqs [franceItem; romeItem; bernItem];
     storage := emptyStorage; timers := []; effects := [] |}.

Definition cellCard : Item :=
  {| question := "What is a cell?"; answer := Some "The unit of life.";
     options := None; correctAnswer := None; icon := None |}.

Definition leafCard : Item :=
  {| question := "What does a leaf do?"; answer := Some "Photosynthesis.";
     options := None; correctAnswer := None; icon := None |}.

(** Two flashcards on the page, the first one shown. *)
Definition deckConfig : Config :=
  {| app := initialState |> setFlashcards [cellCard; leafCard];
     storage := emptyStorage; timers := []; effects := [] |}.

(** A record written before themes were stored. *)
Definition legacyRecord : HistoryItem.t :=
  {| HistoryItem.id := 1690000000000;
     HistoryItem.timestamp := "2023-07-22T04:26:40.000Z";
     HistoryItem.inputType := Text;
     HistoryItem.generationMode := MCQs;
     HistoryItem.inputContent := Some "Capitals of Europe";
     HistoryItem.generatedData := [franceItem; romeItem];
     HistoryItem.theme := None |}.

(** A served question whose [correctAnswer] differs from every option
    by its first letter. *)
Definition lowercaseItem : Item :=
  {| question := "Capital of France?"; answer := None;
     options := Some ["Paris"; "Lyon"; "Nice"; "Lille"];
     correctAnswer := Some "paris"; icon := None |}.

Definition lowercaseWorld : World :=
  {| readerResult := None; generateContent := TextResolved (ParsedArray [lowercaseItem]);
     generateImages := fun _ => IconResolved ["iVBOR"]; setItemThrows := false;
     dateNow := 1700000000000; toISOString := "2023-11-14T22:13:20.000Z" |}.

(** Text typed, MCQ mode chosen, nothing generated yet. *)
Definition mcqTextConfig : Config :=
  {| app := initialState |> setGenerationMode MCQs |> setTextContent "France";
     storage := emptyStorage; timers := []; effects := [] |}.

(** Three spaces typed in the text area. *)
Definition blankTextConfig : Config :=
  {| app := initialState |> setTextContent "   ";
     storage := emptyStorage; timers := []; effects := [] |}.

(** Nothing typed. *)
Definition emptyTextConfig : Config :=
  {| app := initialState; storage := emptyStorage; timers := []; effects := [] |}.

(** The service answers with two flashcards, the storage is full. *)
Definition fullStorageWorld : World :=
  {| readerResult := None;
     generateContent := TextResolved (ParsedArray [cellCard; leafCard]);
     generateImages := fun _ => IconResolved ["iVBOR"]; setItemThrows := true;
     dateNow := 1700000000000; toISOString := "2023-11-14T22:13:20.000Z" |}.

Definition studyTextConfig : Config :=
  {| app := initialState |> setTextContent "Photosynthesis converts light to energy";
     storage := emptyStorage; timers := []; effects := [] |}.

(** Two questions served; the icon request of the second one rejects. *)
Definition iconFailWorld : World :=
  {| readerResult := None;
     generateContent := TextResolved (ParsedArray [franceItem; romeItem]);
     generateImages := fun index => match index with
                                    | 1%nat => IconRejected
                                    | _ => IconResolved ["iVBOR"]
                                    end;
     setItemThrows := false;
     dateNow := 1700000000000; toISOString := "2023-11-14T22:13:20.000Z" |}.

Definition mcqIconsConfig : Config :=
  {| app := initialState |> setGenerationMode MCQs |> setTextContent "Capitals"
                         |> setGenerateIcons true;
     storage := emptyStorage; timers := []; effects := [] |}.

(** An image picked in image mode. *)
Definition leafFile : File := {| file_name := "leaf.png"; file_type := "image/png" |}.

Definition imageConfig : Config :=
  {| app := initialState |> setInputType Image |> setImage (Some leafFile)
                         |> setImagePreview (Some "data:image/png;base64,iVBOR");
     storage := emptyStorage; timers := []; effects := [] |}.

(** The file can be read. *)
Definition readableWorld : World :=
  {| readerResult := Some "data:image/png;base64,iVBOR";
     generateContent := TextResolved (ParsedArray [cellCard; leafCard]);
     generateImages := fun _ => IconResolved ["iVBOR"]; setItemThrows := false;
     dateNow := 1700000000000; toISOString := "2023-11-14T22:13:20.000Z" |}.

(** The service rejects. *)
Definition rejectingWorld : World :=
  {| readerResult := None; generateContent := TextRejected;
     generateImages := fun _ => IconResolved ["iVBOR"]; setItemThrows := false;
     dateNow := 1700000000000; toISOString := "2023-11-14T22:13:20.000Z" |}.

(** The second icon response comes without an image. *)
Definition noImageWorld : World :=
  {| readerResult := None;
     generateContent := TextResolved (ParsedArray [franceItem; romeItem]);
     generateImages := fun index => match index with
                                    | 1%nat => IconResolved []
                                    | _ => IconResolved ["iVBOR"]
                                    end;
     setItemThrows := false;
     dateNow := 1700000000000; toISOString := "2023-11-14T22:13:20.000Z" |}.


(** A record holding a single flashcard. *)
Definition oneCardRecord : HistoryItem.t :=
  {| HistoryItem.id := 1690000000001;
     HistoryItem.timestamp := "2023-07-22T04:26:40.001Z";
     HistoryItem.inputType := Text;
     HistoryItem.generationMode := Flashcards;
     HistoryItem.inputContent := Some "Cells";
     HistoryItem.generatedData := [cellCard];
     HistoryItem.theme := Some "dark" |}.

(** * Properties *)

(** ** Quiz *)

Example splitComma1_dataURL :
  splitComma1 "data:image/png;base64,iVBOR" = Some "iVBOR".
Proof. reflexivity. Qed.

Example splitComma1_no_comma : splitComma1 "iVBOR" = None.
Proof. reflexivity. Qed.

Example orDefault_stored : orDefault (Some "ocean") = "ocean".
Proof. reflexivity. Qed.

Example iconPrompt_france :
  iconPrompt franceItem
  = "A simple, clean, minimalist vector icon representing 'Capital of France?'. Flat design on a plain background.".
Proof. reflexivity. Qed.

Example generate_then_answer :
  let c := run exampleWorld [GenerateClick; OptionClick "Paris"; NextClick] mcqTextConfig in
  mcqs (app c) = [franceItem]
  /\ score (app c) = 1
  /\ quizFinished (app c) = true
  /\ length (history (app c)) = 1%nat
  /\ studyAppHistory (storage c) = Some (Serialized (history (app c))).
Proof. cbv zeta. repeat split; vm_compute; reflexivity. Qed.

Example enrich_attaches_in_order :
  enrich exampleWorld [franceItem; romeItem]
  = inr [withIcon franceItem "iVBOR"; withIcon romeItem "iVBOR"].
Proof. reflexivity. Qed.

Example pending_reader_keeps_loading :
  let c := dispatch exampleWorld GenerateClick
             {| app := initialState |> setInputType Image
                         |> setImage (Some {| file_name := "leaf.png";
                                              file_type := "image/png" |});
                storage := emptyStorage; timers := []; effects := [] |} in
  (isLoading (app c), effects c) = (true, [Uncaught TypeError]).
Proof. reflexivity. Qed.

Lemma len_nonneg {A : Type} (xs : list A) : 0 <= len xs.
Proof. unfold len. lia. Qed.

Lemma len_pos {A : Type} (xs : list A) : xs <> [] -> 0 < len xs.
Proof. destruct xs; [congruence | unfold len; simpl; lia]. Qed.

Lemma handleOptionClick_answered (opt : string) (st : AppState) :
  isAnswered st = true -> handleOptionClick opt st = st.
Proof. intros H. unfold handleOptionClick. rewrite H. reflexivity. Qed.

Lemma quizInitial_inv (st : AppState) :
  mcqs st <> [] -> quizInitial st -> quizInv st.
Proof.
  intros Hne (Hi & _ & Ha & Hs & Hf). pose proof (len_pos _ Hne).
  unfold quizInv. rewrite Hi, Ha, Hs, Hf. repeat split; try lia; discriminate.
Qed.

Lemma handleOptionClick_inv (opt : string) (st : AppState) :
  quizInv st -> quizInv (handleOptionClick opt st).
Proof.
  intros (Hi & Hs & Hb & Hf). unfold handleOptionClick.
  destruct (isAnswered st) eqn:Ha.
  - unfold quizInv. rewrite Ha. auto.
  - assert (Hnf : quizFinished st = false).
    { destruct (quizFinished st); [destruct Hf as [_ Hf]; [reflexivity | discriminate] | reflexivity]. }
    destruct (at_index (mcqs st) (currentMcq st)) as [q|];
      [destruct (strictEq opt (correctAnswer q))|];
      unfold quizInv; cbn; rewrite ?Hnf; repeat split; try lia; try discriminate.
Qed.

Lemma handleNextQuestion_inv (st : AppState) :
  isAnswered st = true -> quizInv st -> quizInv (handleNextQuestion st).
Proof.
  intros Ha (Hi & Hs & Hb & Hf). rewrite Ha in Hb. unfold handleNextQuestion.
  destruct (currentMcq st <? len (mcqs st) - 1) eqn:Hlt.
  - apply Z.ltb_lt in Hlt. unfold quizInv; cbn.
    split; [lia|]. split; [lia|]. split; [lia|].
    intros Hfin. destruct (Hf Hfin). lia.
  - apply Z.ltb_ge in Hlt. unfold quizInv; cbn. rewrite Ha.
    split; [lia|]. split; [lia|]. split; [lia|].
    intros _. split; [lia | reflexivity].
Qed.

Lemma restartQuiz_inv (st : AppState) :
  mcqs st <> [] -> quizInv (restartQuiz st).
Proof.
  intros Hne. pose proof (len_pos _ Hne).
  unfold quizInv, restartQuiz; cbn. repeat split; try lia; discriminate.
Qed.

Lemma quizStep_mcqs (st st' : AppState) : quizStep st st' -> mcqs st' = mcqs st.
Proof.
  intros [opt s | s Ha | s].
  - unfold handleOptionClick. destruct (isAnswered s); [reflexivity|].
    destruct (at_index (mcqs s) (currentMcq s)) as [q|];
      [destruct (strictEq opt (correctAnswer q))|]; reflexivity.
  - unfold handleNextQuestion.
    destruct (currentMcq s <? len (mcqs s) - 1); reflexivity.
  - reflexivity.
Qed.

Lemma quizStep_inv (st st' : AppState) :
  mcqs st <> [] -> quizInv st -> quizStep st st' -> quizInv st'.
Proof.
  intros Hne Hinv Hstep. destruct Hstep as [opt s | s Ha | s].
  - now apply handleOptionClick_inv.
  - now apply handleNextQuestion_inv.
  - now apply restartQuiz_inv.
Qed.

Lemma quizReach_inv (st0 st : AppState) :
  mcqs st0 <> [] -> quizInitial st0 -> quizReach st0 st ->
  mcqs st = mcqs st0 /\ quizInv st.
Proof.
  intros Hne Hinit Hreach. induction Hreach as [| st st' _ [IHm IHi] Hstep].
  - split; [reflexivity | now apply quizInitial_inv].
  - split.
    + rewrite (quizStep_mcqs _ _ Hstep). exact IHm.
    + apply (quizStep_inv st); [rewrite IHm; exact Hne | exact IHi | exact Hstep].
Qed.


(** The handler itself does not look at [isAnswered]: fired on an
    unanswered last question it would finish the quiz unanswered.  The page
    never offers that click ([renderMCQs_quizStep]). *)
Remark handleNextQuestion_unguarded :
  quizFinished (handleNextQuestion quizStart) = true
  /\ isAnswered (handleNextQuestion quizStart) = false
  /\ ~ In NextClick (renderMCQs quizStart).
Proof.
  split; [reflexivity|]. split; [reflexivity|].
  cbn. intros [H | [H | [H | [H | []]]]]; discriminate.
Qed.

(** C4.  Along every sequence of quiz transitions (answering an option,
    advancing from an answered question, restarting) that starts in the
    initial quiz state over a non-empty list of questions, the score is at
    most [currentMcq + 1], and a finished quiz stands on the last question,
    answered. *)
Theorem quiz_invariant (st0 st : AppState) :
  mcqs st0 <> [] -> quizInitial st0 -> quizReach st0 st ->
  score st <= currentMcq st + 1
  /\ (quizFinished st = true ->
      currentMcq st = len (mcqs st) - 1 /\ isAnswered st = true).
Proof.
  intros Hne Hinit Hreach.
  destruct (quizReach_inv st0 st Hne Hinit Hreach) as (_ & Hi & Hs & Hb & Hf).
  split; [|exact Hf]. destruct (isAnswered st); lia.
Qed.

Lemma quiz_invariant_witness :
  quizFinished (handleNextQuestion (handleOptionClick "Paris" quizStart)) = true
  /\ score (handleNextQuestion (handleOptionClick "Paris" quizStart)) <= 0 + 1.
Proof.
  split; [reflexivity|].
  apply (quiz_invariant quizStart (handleNextQuestion (handleOptionClick "Paris" quizStart))).
  - discriminate.
  - repeat split.
  - eapply reach_step; [eapply reach_step; [apply reach_start | apply selectOption_step]|].
    apply next_step. reflexivity.
Defined.

(** C6.  Once a question is answered, clicking options changes nothing:
    any number of further clicks, with any options, leaves the whole
    configuration (selected option, score and everything else) as it was. *)
Theorem selectOption_idempotent (w : World) (c : Config) (opts : list string) :
  isAnswered (app c) = true ->
  run w (map OptionClick opts) c = c
  /\ fold_left (fun st opt => handleOptionClick opt st) opts (app c) = app c.
Proof.
  intros Ha. split.
  - induction opts as [|opt opts IH]; [reflexivity|].
    cbn [map run dispatch]. unfold handleOptionClick_throws. rewrite Ha. cbn [negb andb].
    unfold update. rewrite (handleOptionClick_answered opt _ Ha).
    destruct c; exact IH.
  - induction opts as [|opt opts IH]; [reflexivity|].
    cbn [fold_left]. rewrite (handleOptionClick_answered opt _ Ha). exact IH.
Qed.

Lemma selectOption_idempotent_witness :
  run exampleWorld [OptionClick "Lyon"; OptionClick "Paris"]
      (update (handleOptionClick "Nice") quizConfig)
  = update (handleOptionClick "Nice") quizConfig.
Proof.
  apply (selectOption_idempotent exampleWorld
           (update (handleOptionClick "Nice") quizConfig) ["Lyon"; "Paris"]).
  reflexivity.
Defined.

Lemma app_dispatch_OptionClick (w : World) (opt : string) (c : Config) :
  app (dispatch w (OptionClick opt) c) = handleOptionClick opt (app c).
Proof. cbn. destruct (handleOptionClick_throws (app c)); reflexivity. Qed.

Lemma select_quizAt (opt : string) (st : AppState) (i s : Z) (f : bool)
  (qs : list Item) (q : Item) :
  quizAt st i false s f qs -> at_index qs i = Some q ->
  quizAt (handleOptionClick opt st) i true
         (if strictEq opt (correctAnswer q) then s + 1 else s) f qs.
Proof.
  intros (Hi & Ha & Hs & Hf & Hq) Hat. unfold handleOptionClick.
  rewrite Ha, Hq, Hi, Hat.
  destruct (strictEq opt (correctAnswer q)); unfold quizAt; cbn; rewrite ?Hs; auto.
Qed.

Lemma next_quizAt (st : AppState) (i s : Z) (a f : bool) (qs : list Item) :
  quizAt st i a s f qs ->
  quizAt (handleNextQuestion st)
         (if i <? len qs - 1 then i + 1 else i)
         (if i <? len qs - 1 then false else a) s
         (if i <? len qs - 1 then f else true) qs.
Proof.
  intros (Hi & Ha & Hs & Hf & Hq). unfold handleNextQuestion.
  rewrite Hi, Hq. destruct (i <? len qs - 1); unfold quizAt; cbn; auto.
Qed.

(** C7.  Three questions, the first answered correctly, the second
    incorrectly, the third correctly, each answer followed by the next
    button: the quiz is not finished before the third advance, and after it
    the quiz is finished with a score of 2. *)
Theorem three_question_quiz (w : World) (c : Config) (q1 q2 q3 : Item)
  (o1 o2 o3 : string) :
  mcqs (app c) = [q1; q2; q3] -> quizInitial (app c) ->
  correctAnswer q1 = Some o1 ->
  correctAnswer q2 <> Some o2 ->
  correctAnswer q3 = Some o3 ->
  let answered3 :=
    run w [OptionClick o1; NextClick; OptionClick o2; NextClick; OptionClick o3] c in
  let final := dispatch w NextClick answered3 in
  quizFinished (app answered3) = false
  /\ score (app answered3) = 2
  /\ In NextClick (renderMCQs (app answered3))
  /\ quizFinished (app final) = true
  /\ score (app final) = 2
  /\ renderMCQs (app final) = [TryAgainClick].
Proof.
  intros Hm (Hi & _ & Ha & Hs & Hf) H1 H2 H3.
  assert (E1 : strictEq o1 (correctAnswer q1) = true)
    by (rewrite H1; apply String.eqb_refl).
  assert (E2 : strictEq o2 (correctAnswer q2) = false).
  { destruct (correctAnswer q2) as [a|]; [|reflexivity].
    apply String.eqb_neq. congruence. }
  assert (E3 : strictEq o3 (correctAnswer q3) = true)
    by (rewrite H3; apply String.eqb_refl).
  assert (Q0 : quizAt (app c) 0 false 0 false [q1; q2; q3])
    by (unfold quizAt; auto).
  pose proof (select_quizAt o1 _ _ _ _ _ q1 Q0 eq_refl) as Q1. rewrite E1 in Q1.
  pose proof (next_quizAt _ _ _ _ _ _ Q1) as Q2. cbn in Q2.
  pose proof (select_quizAt o2 _ _ _ _ _ q2 Q2 eq_refl) as Q3. rewrite E2 in Q3.
  pose proof (next_quizAt _ _ _ _ _ _ Q3) as Q4. cbn in Q4.
  pose proof (select_quizAt o3 _ _ _ _ _ q3 Q4 eq_refl) as Q5. rewrite E3 in Q5.
  pose proof (next_quizAt _ _ _ _ _ _ Q5) as Q6. cbn in Q6.
  cbn [run]. cbv zeta.
  change (app (dispatch w NextClick ?x)) with (handleNextQuestion (app x)).
  rewrite !app_dispatch_OptionClick.
  change (app (dispatch w NextClick ?x)) with (handleNextQuestion (app x)).
  rewrite !app_dispatch_OptionClick.
  change (app (dispatch w NextClick ?x)) with (handleNextQuestion (app x)).
  rewrite !app_dispatch_OptionClick.
  destruct Q5 as (Q5i & Q5a & Q5s & Q5f & Q5q).
  destruct Q6 as (Q6i & Q6a & Q6s & Q6f & Q6q).
  repeat split; try assumption.
  - unfold renderMCQs. rewrite Q5f, Q5q, Q5i, Q5a. left. reflexivity.
  - unfold renderMCQs. rewrite Q6f. reflexivity.
Qed.

Lemma three_question_quiz_witness :
  score (app (dispatch exampleWorld NextClick
                (run exampleWorld
                   [OptionClick "Paris"; NextClick; OptionClick "Milan"; NextClick;
                    OptionClick "Bern"] quiz3Config))) = 2.
Proof.
  assert (H1 : mcqs (app quiz3Config) = [franceItem; romeItem; bernItem]) by reflexivity.
  assert (H2 : quizInitial (app quiz3Config)) by (repeat split).
  assert (H3 : correctAnswer franceItem = Some "Paris") by reflexivity.
  assert (H4 : correctAnswer romeItem <> Some "Milan") by discriminate.
  assert (H5 : correctAnswer bernItem = Some "Bern") by reflexivity.
  pose proof (three_question_quiz exampleWorld quiz3Config franceItem romeItem bernItem
                "Paris" "Milan" "Bern" H1 H2 H3 H4 H5) as H.
  cbv zeta in H. destruct H as (_ & _ & _ & _ & H & _). exact H.
Defined.

(** ** Flashcards *)

Lemma navigateCard_updater_range (t : Timeout) (prev deckLength : Z) :
  flashcardsLength t = deckLength -> 0 <= prev < deckLength ->
  0 <= navigateCard_updater t prev < deckLength.
Proof.
  intros Ht Hp. unfold navigateCard_updater. rewrite Ht.
  destruct (0 <=? prev + direction t) eqn:H0; cbn [andb]; [|lia].
  destruct (prev + direction t <? deckLength) eqn:H1; [|lia].
  apply Z.leb_le in H0. apply Z.ltb_lt in H1. lia.
Qed.

Lemma navInv_dispatch (w : World) (ev : Event) (deckLength : Z) (done : list Effect)
  (c : Config) :
  navEvent ev -> navInv deckLength done c -> navInv deckLength done (dispatch w ev c).
Proof.
  intros Hev (Hr & Hl & Ht & He).
  assert (Hclick : forall dir, navInv deckLength done (navigateCard dir c)).
  { intros dir. unfold navInv, navigateCard. cbn.
    split; [exact Hr|]. split; [exact Hl|]. split; [|exact He].
    apply Forall_app. split; [exact Ht|]. constructor; [exact Hl | constructor]. }
  destruct Hev as [-> | [-> | ->]]; cbn [dispatch]; try apply Hclick.
  unfold timerFires. destruct (timers c) as [|t pending] eqn:Etm.
  - unfold navInv. rewrite Etm. auto.
  - inversion Ht as [|t' pending' Hhead Htail Et]. clear Et.
    unfold navInv. cbn.
    split; [apply (navigateCard_updater_range t); assumption|].
    split; [exact Hl|]. split; [exact Htail | exact He].
Qed.

Lemma navInv_run (w : World) (evs : list Event) (deckLength : Z) (done : list Effect)
  (c : Config) :
  Forall navEvent evs -> navInv deckLength done c -> navInv deckLength done (run w evs c).
Proof.
  intros Hevs. revert c. induction Hevs as [|ev evs Hev _ IH]; intros c Hinv.
  - exact Hinv.
  - cbn [run]. apply IH. now apply navInv_dispatch.
Qed.

(** C5.  Over a non-empty deck, with [currentCard] in range and no
    timer pending: whatever sequence of arrow clicks (direction -1 or +1)
    and timer firings follows, [currentCard] stays within
    [0, len - 1] and nothing is logged or thrown; a click first turns the
    card to its front and leaves the index alone, and when its timer fires
    the index moves by the direction if that stays in range and is
    unchanged otherwise. *)
Theorem navigate_in_range (w : World) (c : Config) :
  flashcards (app c) <> [] ->
  0 <= currentCard (app c) < len (flashcards (app c)) ->
  timers c = [] ->
  (forall evs, Forall navEvent evs ->
     0 <= currentCard (app (run w evs c)) <= len (flashcards (app (run w evs c))) - 1
     /\ flashcards (app (run w evs c)) <> []
     /\ effects (run w evs c) = effects c)
  /\ (forall dir, dir = -1 \/ dir = 1 ->
      let clicked := dispatch w (NavigateClick dir) c in
      let moved := dispatch w TimerFires clicked in
      let target := currentCard (app c) + dir in
      app clicked = setIsFlipped false (app c)
      /\ isFlipped (app moved) = false
      /\ (0 <= target <= len (flashcards (app c)) - 1 -> currentCard (app moved) = target)
      /\ (~ 0 <= target <= len (flashcards (app c)) - 1 ->
          currentCard (app moved) = currentCard (app c))).
Proof.
  intros Hne Hr Htm. split.
  - intros evs Hevs.
    assert (Hinv : navInv (len (flashcards (app c))) (effects c) c).
    { unfold navInv. rewrite Htm. repeat split; try tauto. constructor. }
    destruct (navInv_run w evs _ _ c Hevs Hinv) as (Hr' & Hl' & _ & He').
    rewrite Hl'. split; [lia|]. split; [|exact He'].
    intros Hnil. rewrite Hnil in Hl'. unfold len in Hl' at 1. cbn in Hl'. lia.
  - intros dir _. cbn [dispatch]. unfold navigateCard, timerFires. cbn.
    rewrite Htm. cbn. unfold navigateCard_updater. cbn.
    split; [reflexivity|]. split; [reflexivity|].
    destruct (0 <=? currentCard (app c) + dir) eqn:H0;
      destruct (currentCard (app c) + dir <? len (flashcards (app c))) eqn:H1;
      cbn [andb];
      try apply Z.leb_le in H0; try apply Z.leb_gt in H0;
      try apply Z.ltb_lt in H1; try apply Z.ltb_ge in H1;
      split; intros; lia.
Qed.

Lemma navigate_in_range_witness :
  0 <= currentCard (app (run exampleWorld
                           [NavigateClick 1; NavigateClick 1; TimerFires; TimerFires;
                            NavigateClick (-1)] deckConfig))
    <= len (flashcards (app (run exampleWorld
                           [NavigateClick 1; NavigateClick 1; TimerFires; TimerFires;
                            NavigateClick (-1)] deckConfig))) - 1.
Proof.
  assert (Hne : flashcards (app deckConfig) <> []) by discriminate.
  assert (Hr : 0 <= currentCard (app deckConfig) < len (flashcards (app deckConfig)))
    by (vm_compute; split; [discriminate | reflexivity]).
  assert (Htm : timers deckConfig = []) by reflexivity.
  destruct (navigate_in_range exampleWorld deckConfig Hne Hr Htm) as [Hrun _].
  apply Hrun.
  repeat first [apply Forall_nil | apply Forall_cons; [unfold navEvent; auto |]].
Defined.

(** ** History and input switches *)

(** C9.  Opening a history record restores its theme, or ['default']
    when the record has no theme or an empty one; it shows the record's
    items in the list of the record's mode, empties the other list and puts
    the matching viewer in its initial state (flashcards: first card, front
    shown; quiz: full restart). *)
Theorem view_history_item (item : HistoryItem.t) (st : AppState) :
  let st' := handleViewHistoryItem item st in
  (HistoryItem.theme item = None \/ HistoryItem.theme item = Some "" ->
   theme st' = "default")
  /\ (forall stored, HistoryItem.theme item = Some stored -> stored <> "" ->
      theme st' = stored)
  /\ generationMode st' = HistoryItem.generationMode item
  /\ (HistoryItem.generationMode item = Flashcards ->
      flashcards st' = HistoryItem.generatedData item /\ mcqs st' = []
      /\ currentCard st' = 0 /\ isFlipped st' = false)
  /\ (HistoryItem.generationMode item = MCQs ->
      mcqs st' = HistoryItem.generatedData item /\ flashcards st' = []
      /\ quizInitial st').
Proof.
  cbv zeta. unfold handleViewHistoryItem.
  split; [|split; [|split; [|split]]].
  - intros [H | H]; destruct (HistoryItem.generationMode item); cbn; rewrite H; reflexivity.
  - intros stored H Hne. apply String.eqb_neq in Hne.
    destruct (HistoryItem.generationMode item); cbn; rewrite H; cbn;
      unfold falsy; rewrite Hne; reflexivity.
  - destruct (HistoryItem.generationMode item); reflexivity.
  - intros ->. cbn. auto.
  - intros ->. unfold quizInitial. cbn. auto 10.
Qed.

Lemma view_history_item_witness :
  theme (handleViewHistoryItem legacyRecord (setTheme "ocean" initialState)) = "default".
Proof.
  destruct (view_history_item legacyRecord (setTheme "ocean" initialState)) as [H _].
  apply H. left. reflexivity.
Defined.

(** C10.  Clicking an input-type tab or a generation-mode tab, in any
    state, empties the text, the selected image and its preview, both item
    lists and the error message, and leaves the history, the theme and the
    storage as they were. *)
Theorem switching_clears_input (w : World) (c : Config) :
  (forall type,
      inputCleared c (dispatch w (InputTypeClick type) c)
      /\ inputType (app (dispatch w (InputTypeClick type) c)) = type)
  /\ (forall mode,
      inputCleared c (dispatch w (GenerationModeClick mode) c)
      /\ generationMode (app (dispatch w (GenerationModeClick mode) c)) = mode).
Proof.
  split; intros x; unfold inputCleared; cbn; repeat split.
Qed.

(** ** Generation *)

Lemma firstRejected_spec (g : nat -> IconResponse) (n k : nat) :
  match firstRejected k (map g (seq k n)) with
  | Some j => g j = IconRejected /\ (k <= j < k + n)%nat
  | None => forall i, (k <= i < k + n)%nat -> g i <> IconRejected
  end.
Proof.
  revert k. induction n as [|n IH]; intros k; cbn.
  - intros i Hi. lia.
  - destruct (g k) eqn:Hk.
    + split; [exact Hk | lia].
    + specialize (IH (S k)). destruct (firstRejected (S k) (map g (seq (S k) n))) as [j|].
      * destruct IH as [Hj Hr]. split; [exact Hj | lia].
      * intros i Hi. destruct (Nat.eq_dec i k) as [->|Hne].
        -- rewrite Hk. discriminate.
        -- apply IH. lia.
Qed.

Lemma enrich_rejected (w : World) (items : list Item) (i : nat) :
  (i < length items)%nat -> generateImages w i = IconRejected ->
  exists j, enrich w items = inl (IconRejection j)
            /\ generateImages w j = IconRejected /\ (j < length items)%nat.
Proof.
  intros Hi Hrej. unfold enrich, iconResponsesOf.
  pose proof (firstRejected_spec (generateImages w) (length items) 0) as Hspec.
  destruct (firstRejected 0 (map (generateImages w) (seq 0 (length items)))) as [j|].
  - exists j. destruct Hspec as [Hj Hr]. repeat split; [exact Hj | lia].
  - exfalso. apply (Hspec i); [lia | exact Hrej].
Qed.

Lemma attachIcons_sameQuizFields (items : list Item) (responses : list IconResponse)
  (enriched : list Item) :
  attachIcons items responses = inr enriched -> Forall2 sameQuizFields enriched items.
Proof.
  revert responses enriched. induction items as [|item items IH]; intros responses enriched.
  - cbn. intros H. injection H as <-. constructor.
  - cbn. destruct responses as [|[|[|imageBytes images]] responses]; try discriminate.
    destruct (attachIcons items responses) as [e|rest] eqn:Hrest; [discriminate|].
    intros H. injection H as <-. constructor.
    + unfold sameQuizFields. cbn. auto.
    + now apply (IH responses).
Qed.

Lemma enrich_sameQuizFields (w : World) (items enriched : list Item) :
  enrich w items = inr enriched -> Forall2 sameQuizFields enriched items.
Proof.
  unfold enrich. destruct (firstRejected 0 (iconResponsesOf w items)); [discriminate|].
  apply attachIcons_sameQuizFields.
Qed.

Lemma sameQuizFields_refl (items : list Item) : Forall2 sameQuizFields items items.
Proof. induction items; constructor; unfold sameQuizFields; auto. Qed.

Lemma sameQuizFields_wellFormed (produced served : list Item) :
  Forall2 sameQuizFields produced served ->
  (Forall wellFormedMCQ produced <-> Forall wellFormedMCQ served).
Proof.
  induction 1 as [|p s ps ss (_ & Ho & Ha) _ IH]; [tauto|].
  assert (Hone : wellFormedMCQ p <-> wellFormedMCQ s).
  { unfold wellFormedMCQ. rewrite Ho, Ha. tauto. }
  split; intros Hall; inversion Hall; subst; constructor; tauto.
Qed.

Lemma showAndSave_effects (cl : AppState) (w : World) (items : list Item) (c : Config) :
  effects (fst (showAndSave cl w items c)) = effects c.
Proof.
  unfold showAndSave. destruct (generationMode cl), (setItemThrows w); reflexivity.
Qed.

Lemma handleParsed_effects (cl : AppState) (w : World) (text : Parsed) (c : Config) :
  exists more, effects (fst (handleParsed cl w text c)) = (effects c ++ more)%list.
Proof.
  unfold handleParsed. destruct text as [| |items].
  - exists []. cbn. now rewrite app_nil_r.
  - exists []. cbn. now rewrite app_nil_r.
  - destruct (0 <? len items); [|exists []; cbn; now rewrite app_nil_r].
    destruct (generateIcons cl).
    + exists (map (fun item => CallGenerateImages (iconPrompt item)) items).
      destruct (enrich w items); [reflexivity|]. now rewrite showAndSave_effects.
    + exists []. rewrite showAndSave_effects. now rewrite app_nil_r.
Qed.

(** C3, as the code has it.  [handleGenerate] stops with the
    empty-input message, calling no service and changing nothing but the
    error, when the text is the empty string in text mode or no file is
    selected in image mode.  Any other text, made of spaces only included,
    passes the guard and is sent to the text-generation service. *)
Theorem generate_validation (w : World) (c : Config) :
  ((inputType (app c) = Text /\ textContent (app c) = "")
   \/ (inputType (app c) = Image /\ image (app c) = None) ->
   dispatch w GenerateClick c = update (setError (Some msgNoContent)) c)
  /\ (inputType (app c) = Text -> textContent (app c) <> "" ->
      exists more,
        effects (dispatch w GenerateClick c)
        = (effects c
             ++ CallGenerateContent (generationMode (app c))
                  [TextPart (textContent (app c));
                   TextPart (promptOf (generationMode (app c)))] :: more)%list).
Proof.
  split.
  - intros H. cbn [dispatch]. unfold handleGenerate.
    assert (He : emptyInput (app c) = true).
    { unfold emptyInput. destruct H as [[-> ->] | [-> ->]]; reflexivity. }
    rewrite He. reflexivity.
  - intros Ht Hne. cbn [dispatch]. unfold handleGenerate.
    assert (He : emptyInput (app c) = false).
    { unfold emptyInput, falsy. rewrite Ht. cbn.
      rewrite orb_false_r. now apply String.eqb_neq. }
    rewrite He. unfold handleGenerate_try, contentPart. rewrite Ht.
    destruct (generateContent w) as [|text].
    + exists [ConsoleError ServiceRejection]. cbn. now rewrite <- app_assoc.
    + match goal with
      | |- context [handleParsed ?cl w text ?c1] =>
          destruct (handleParsed_effects cl w text c1) as [more Hmore];
          destruct (handleParsed cl w text c1) as [c2 [|e|]]
      end; cbn [fst] in Hmore; cbn in Hmore |- *; rewrite Hmore, <- ?app_assoc; cbn.
      * now exists more.
      * exists (more ++ [ConsoleError e])%list. rewrite <- ?app_assoc. reflexivity.
      * now exists more.
Qed.

Lemma generate_validation_witness :
  dispatch exampleWorld GenerateClick emptyTextConfig
  = update (setError (Some msgNoContent)) emptyTextConfig.
Proof.
  destruct (generate_validation exampleWorld emptyTextConfig) as [H _].
  apply H. left. split; reflexivity.
Defined.

(** C3 as stated fails: with three spaces in the text area the guard
    lets the click through, the service is called with that text and its
    items are shown. *)
Lemma whitespace_only_text_counterexample :
  inputType (app blankTextConfig) = Text
  /\ textContent (app blankTextConfig) = "   "
  /\ effects (dispatch exampleWorld GenerateClick blankTextConfig)
     = [CallGenerateContent Flashcards [TextPart "   "; TextPart flashcardPrompt]]
  /\ error (app (dispatch exampleWorld GenerateClick blankTextConfig)) = None
  /\ flashcards (app (dispatch exampleWorld GenerateClick blankTextConfig)) = [franceItem]
  /\ dispatch exampleWorld GenerateClick blankTextConfig
     <> update (setError (Some msgNoContent)) blankTextConfig.
Proof.
  repeat split; try (vm_compute; reflexivity).
  intros H. apply (f_equal (fun c => error (app c))) in H. vm_compute in H. discriminate.
Qed.

Lemma len_pos_ltb {A : Type} (xs : list A) : xs <> [] -> (0 <? len xs) = true.
Proof. intros H. apply Z.ltb_lt. now apply len_pos. Qed.

(** C1, as the code has it.  When [handleGenerate] succeeds in MCQ
    mode, the questions shown are the served ones, position by position,
    with [question], [options] and [correctAnswer] untouched (identical
    items when no icons are requested): nothing is checked or repaired, so
    the MCQ invariant holds of the shown items exactly when it holds of the
    service's answer. *)
Theorem generated_mcqs_are_served (w : World) (c : Config) :
  generationMode (app c) = MCQs ->
  succeeded (dispatch w GenerateClick c) ->
  exists served,
    generateContent w = TextResolved (ParsedArray served)
    /\ served <> []
    /\ Forall2 sameQuizFields (mcqs (app (dispatch w GenerateClick c))) served
    /\ (generateIcons (app c) = false -> mcqs (app (dispatch w GenerateClick c)) = served)
    /\ (Forall wellFormedMCQ (mcqs (app (dispatch w GenerateClick c)))
        <-> Forall wellFormedMCQ served).
Proof.
  intros Hmode [Hload Herr]. cbn [dispatch] in *.
  unfold handleGenerate, handleGenerate_try, handleParsed, showAndSave in *.
  rewrite Hmode in *.
  destruct (emptyInput (app c)); [cbn in Herr; discriminate|].
  destruct (contentPart (app c) w) as [part|e|];
    [|cbn in Herr; discriminate|cbn in Hload; discriminate].
  destruct (generateContent w) as [|[| |served]]; try (cbn in Herr; discriminate).
  destruct (0 <? len served) eqn:Hlen; [|cbn in Herr; discriminate].
  assert (Hne : served <> []) by (intros ->; discriminate).
  destruct (generateIcons (app c)).
  - destruct (enrich w served) as [e|enriched] eqn:Hen; [cbn in Herr; discriminate|].
    destruct (setItemThrows w); [cbn in Herr; discriminate|].
    pose proof (enrich_sameQuizFields w _ _ Hen) as HF.
    exists served. cbn.
    split; [reflexivity|]. split; [exact Hne|]. split; [exact HF|].
    split; [discriminate | now apply sameQuizFields_wellFormed].
  - destruct (setItemThrows w); [cbn in Herr; discriminate|].
    exists served. cbn.
    split; [reflexivity|]. split; [exact Hne|]. split; [apply sameQuizFields_refl|].
    split; [reflexivity | tauto].
Qed.

Lemma generated_mcqs_are_served_witness :
  Forall2 sameQuizFields
    (mcqs (app (dispatch exampleWorld GenerateClick mcqTextConfig))) [franceItem].
Proof.
  assert (Hmode : generationMode (app mcqTextConfig) = MCQs) by reflexivity.
  assert (Hok : succeeded (dispatch exampleWorld GenerateClick mcqTextConfig))
    by (split; vm_compute; reflexivity).
  destruct (generated_mcqs_are_served exampleWorld mcqTextConfig Hmode Hok)
    as (served & Hs & _ & HF & _).
  injection Hs as <-. exact HF.
Defined.

(** C1 as stated fails: the service answers a schema-shaped question
    whose [correctAnswer] is none of its four options; [handleGenerate]
    succeeds and shows it as it came. *)
Lemma unchecked_mcq_counterexample :
  generationMode (app mcqTextConfig) = MCQs
  /\ succeeded (dispatch lowercaseWorld GenerateClick mcqTextConfig)
  /\ mcqs (app (dispatch lowercaseWorld GenerateClick mcqTextConfig)) = [lowercaseItem]
  /\ ~ wellFormedMCQ lowercaseItem
  /\ ~ Forall wellFormedMCQ (mcqs (app (dispatch lowercaseWorld GenerateClick mcqTextConfig))).
Proof.
  assert (Hbad : ~ wellFormedMCQ lowercaseItem).
  { intros (os & a & Ho & Ha & Hin & _). cbn in Ho, Ha.
    injection Ho as <-. injection Ha as <-.
    cbn in Hin. decompose [or] Hin; try discriminate; contradiction. }
  split; [reflexivity|]. split; [split; vm_compute; reflexivity|].
  split; [vm_compute; reflexivity|]. split; [exact Hbad|].
  intros Hall.
  assert (E : mcqs (app (dispatch lowercaseWorld GenerateClick mcqTextConfig))
              = [lowercaseItem]) by (vm_compute; reflexivity).
  rewrite E in Hall. inversion Hall. contradiction.
Qed.

(** C2.  With icons requested, the input accepted and a non-empty array
    served: if the icon request of some item rejects, [handleGenerate]
    is aborted by that rejection (it is what the [catch] logs, right after
    the requests), the generic error is shown, the history and the storage
    are untouched, and both item lists stay empty: no item, with or without
    icon, is shown. *)
Theorem icon_failure_aborts (w : World) (c : Config) (part : Part)
  (items : list Item) (i : nat) :
  emptyInput (app c) = false ->
  generateIcons (app c) = true ->
  contentPart (app c) w = Fulfilled part ->
  generateContent w = TextResolved (ParsedArray items) ->
  (i < length items)%nat ->
  generateImages w i = IconRejected ->
  exists j,
    generateImages w j = IconRejected
    /\ effects (dispatch w GenerateClick c)
       = (effects c
            ++ CallGenerateContent (generationMode (app c))
                 [part; TextPart (promptOf (generationMode (app c)))]
            :: map (fun item => CallGenerateImages (iconPrompt item)) items
            ++ [ConsoleError (IconRejection j)])%list
    /\ error (app (dispatch w GenerateClick c)) = Some msgGenerateFailed
    /\ history (app (dispatch w GenerateClick c)) = history (app c)
    /\ storage (dispatch w GenerateClick c) = storage c
    /\ flashcards (app (dispatch w GenerateClick c)) = []
    /\ mcqs (app (dispatch w GenerateClick c)) = []
    /\ isLoading (app (dispatch w GenerateClick c)) = false.
Proof.
  intros He Hicons Hpart Hgen Hi Hrej.
  destruct (enrich_rejected w items i Hi Hrej) as (j & Hen & Hj & _).
  assert (Hlen : (0 <? len items) = true).
  { apply len_pos_ltb. intros ->. cbn in Hi. lia. }
  exists j. split; [exact Hj|].
  cbn [dispatch]. unfold handleGenerate, handleGenerate_try, handleParsed.
  rewrite He, Hpart, Hgen, Hlen, Hicons, Hen. cbn.
  rewrite <- !app_assoc. cbn. repeat split.
Qed.

Lemma icon_failure_aborts_witness :
  exists j,
    generateImages iconFailWorld j = IconRejected
    /\ effects (dispatch iconFailWorld GenerateClick mcqIconsConfig)
       = (effects mcqIconsConfig
            ++ CallGenerateContent (generationMode (app mcqIconsConfig))
                 [TextPart "Capitals";
                  TextPart (promptOf (generationMode (app mcqIconsConfig)))]
            :: map (fun item => CallGenerateImages (iconPrompt item)) [franceItem; romeItem]
            ++ [ConsoleError (IconRejection j)])%list
    /\ error (app (dispatch iconFailWorld GenerateClick mcqIconsConfig))
       = Some msgGenerateFailed
    /\ history (app (dispatch iconFailWorld GenerateClick mcqIconsConfig))
       = history (app mcqIconsConfig)
    /\ storage (dispatch iconFailWorld GenerateClick mcqIconsConfig)
       = storage mcqIconsConfig
    /\ flashcards (app (dispatch iconFailWorld GenerateClick mcqIconsConfig)) = []
    /\ mcqs (app (dispatch iconFailWorld GenerateClick mcqIconsConfig)) = []
    /\ isLoading (app (dispatch iconFailWorld GenerateClick mcqIconsConfig)) = false.
Proof.
  apply (icon_failure_aborts iconFailWorld mcqIconsConfig (TextPart "Capitals")
           [franceItem; romeItem] 1%nat).
  - reflexivity.
  - reflexivity.
  - reflexivity.
  - reflexivity.
  - cbn. lia.
  - reflexivity.
Defined.

(** C8, as the code has it.  When everything up to the items succeeded
    and [localStorage.setItem] throws, the items stay on the page, the
    in-memory history keeps the new record and the storage is unchanged; but
    the write sits inside the [try], so its exception reaches the [catch]:
    it is logged and the generic error message is shown as well. *)
Theorem storage_failure_after_generation (w : World) (c : Config) (part : Part)
  (items produced : list Item) :
  emptyInput (app c) = false ->
  contentPart (app c) w = Fulfilled part ->
  generateContent w = TextResolved (ParsedArray items) ->
  items <> [] ->
  (if generateIcons (app c) then enrich w items else inr items) = inr produced ->
  setItemThrows w = true ->
  match generationMode (app c) with
  | MCQs => mcqs (app (dispatch w GenerateClick c)) = produced
  | Flashcards => flashcards (app (dispatch w GenerateClick c)) = produced
  end
  /\ history (app (dispatch w GenerateClick c))
     = newHistoryItem (app c) w produced :: history (app c)
  /\ storage (dispatch w GenerateClick c) = storage c
  /\ isLoading (app (dispatch w GenerateClick c)) = false
  /\ error (app (dispatch w GenerateClick c)) = Some msgGenerateFailed
  /\ exists before,
      effects (dispatch w GenerateClick c)
      = (before ++ [ConsoleError QuotaExceededError])%list.
Proof.
  intros He Hpart Hgen Hne Hprod Hfull.
  cbn [dispatch]. unfold handleGenerate, handleGenerate_try, handleParsed, showAndSave.
  rewrite He, Hpart, Hgen, (len_pos_ltb _ Hne), Hfull.
  destruct (generateIcons (app c)).
  - rewrite Hprod. destruct (generationMode (app c)); cbn;
      repeat split; eexists; reflexivity.
  - injection Hprod as <-. destruct (generationMode (app c)); cbn;
      repeat split; eexists; reflexivity.
Qed.

Lemma storage_failure_after_generation_witness :
  match generationMode (app studyTextConfig) with
  | MCQs => mcqs (app (dispatch fullStorageWorld GenerateClick studyTextConfig))
            = [cellCard; leafCard]
  | Flashcards => flashcards (app (dispatch fullStorageWorld GenerateClick studyTextConfig))
                  = [cellCard; leafCard]
  end
  /\ history (app (dispatch fullStorageWorld GenerateClick studyTextConfig))
     = newHistoryItem (app studyTextConfig) fullStorageWorld [cellCard; leafCard]
         :: history (app studyTextConfig)
  /\ storage (dispatch fullStorageWorld GenerateClick studyTextConfig)
     = storage studyTextConfig
  /\ isLoading (app (dispatch fullStorageWorld GenerateClick studyTextConfig)) = false
  /\ error (app (dispatch fullStorageWorld GenerateClick studyTextConfig))
     = Some msgGenerateFailed
  /\ exists before,
      effects (dispatch fullStorageWorld GenerateClick studyTextConfig)
      = (before ++ [ConsoleError QuotaExceededError])%list.
Proof.
  apply (storage_failure_after_generation fullStorageWorld studyTextConfig
           (TextPart "Photosynthesis converts light to energy")
           [cellCard; leafCard] [cellCard; leafCard]).
  - reflexivity.
  - reflexivity.
  - reflexivity.
  - discriminate.
  - reflexivity.
  - reflexivity.
Defined.

(** C8 as stated fails: the flashcards are generated and shown, the
    record is in the history, the write throws, and the page shows the
    generation error next to the cards. *)
Lemma storage_failure_counterexample :
  setItemThrows fullStorageWorld = true
  /\ flashcards (app (dispatch fullStorageWorld GenerateClick studyTextConfig))
     = [cellCard; leafCard]
  /\ length (history (app (dispatch fullStorageWorld GenerateClick studyTextConfig))) = 1%nat
  /\ error (app (dispatch fullStorageWorld GenerateClick studyTextConfig))
     = Some msgGenerateFailed
  /\ error (app (dispatch fullStorageWorld GenerateClick studyTextConfig)) <> None.
Proof.
  split; [reflexivity|]. split; [vm_compute; reflexivity|].
  split; [vm_compute; reflexivity|]. split; [vm_compute; reflexivity|].
  vm_compute. discriminate.
Qed.

(** ** More on generation *)

Lemma enrich_nonempty (w : World) (items enriched : list Item) :
  items <> [] -> enrich w items = inr enriched -> enriched <> [].
Proof.
  intros Hne Hen Hnil. subst enriched.
  pose proof (enrich_sameQuizFields w _ _ Hen) as HF. inversion HF. congruence.
Qed.

(** The three ways a click on the generate button can go. *)
Lemma handleGenerate_cases (w : World) (c : Config) :
  (emptyInput (app c) = true
   /\ handleGenerate w c = update (setError (Some msgNoContent)) c)
  \/ (emptyInput (app c) = false
      /\ inputsKept (app c) (app (handleGenerate w c))
      /\ viewersInitial (app (handleGenerate w c))
      /\ timers (handleGenerate w c) = timers c
      /\ (generateAborted c (handleGenerate w c)
          \/ exists produced, generateProduced w c (handleGenerate w c) produced)).
Proof.
  unfold handleGenerate. destruct (emptyInput (app c)) eqn:He; [left; auto|].
  right. split; [reflexivity|].
  unfold handleGenerate_try, handleParsed, showAndSave.
  destruct (contentPart (app c) w) as [part|e|].
  2: { unfold inputsKept, viewersInitial, quizInitial, generateAborted; cbn.
       repeat split; left; repeat split; right; discriminate. }
  2: { unfold inputsKept, viewersInitial, quizInitial, generateAborted; cbn.
       repeat split; left; repeat split; left; reflexivity. }
  destruct (generateContent w) as [|[| |items]].
  1-3: unfold inputsKept, viewersInitial, quizInitial, generateAborted; cbn;
       repeat split; left; repeat split; right; discriminate.
  destruct (0 <? len items) eqn:Hlen.
  2: { unfold inputsKept, viewersInitial, quizInitial, generateAborted; cbn.
       repeat split; left; repeat split; right; discriminate. }
  assert (Hne : items <> []) by (intros ->; discriminate).
  destruct (generateIcons (app c)) eqn:Hicons.
  - destruct (enrich w items) as [e|enriched] eqn:Hen.
    { unfold inputsKept, viewersInitial, quizInitial, generateAborted; cbn.
      repeat split; try assumption; left; repeat split; right; discriminate. }
    pose proof (enrich_nonempty w _ _ Hne Hen) as Hne'.
    destruct (setItemThrows w) eqn:Hfull, (generationMode (app c)) eqn:Hmode;
      unfold inputsKept, viewersInitial, quizInitial, generateProduced, shownAs; cbn;
      rewrite ?Hmode; cbn;
      (split; [repeat split; assumption|]); (split; [repeat split|]);
      (split; [reflexivity|]); right; exists enriched;
      (split; [exact Hne'|]); (split; [split; reflexivity|]);
      (split; [reflexivity|]); (split; [reflexivity|]);
      first [left; repeat split; (assumption || reflexivity)
            | right; repeat split; (assumption || reflexivity)].
  - destruct (setItemThrows w) eqn:Hfull, (generationMode (app c)) eqn:Hmode;
      unfold inputsKept, viewersInitial, quizInitial, generateProduced, shownAs; cbn;
      rewrite ?Hmode; cbn;
      (split; [repeat split; assumption|]); (split; [repeat split|]);
      (split; [reflexivity|]); right; exists items;
      (split; [exact Hne|]); (split; [split; reflexivity|]);
      (split; [reflexivity|]); (split; [reflexivity|]);
      first [left; repeat split; (assumption || reflexivity)
            | right; repeat split; (assumption || reflexivity)].
Qed.

(** X1.  A click on the generate button with an accepted input is all
    or nothing: either nothing is shown and nothing is recorded (history and
    storage as before, both lists empty, and the run is pending or ended
    with an error), or a non-empty list of items is shown in the list of the
    mode and the same list is recorded at the head of the history. *)
Theorem generate_all_or_nothing (w : World) (c : Config) :
  emptyInput (app c) = false ->
  generateAborted c (dispatch w GenerateClick c)
  \/ exists produced, generateProduced w c (dispatch w GenerateClick c) produced.
Proof.
  intros He. cbn [dispatch].
  destruct (handleGenerate_cases w c) as [[He' _] | (_ & _ & _ & _ & H)]; [congruence | exact H].
Qed.

Lemma generate_all_or_nothing_witness :
  generateAborted mcqIconsConfig (dispatch iconFailWorld GenerateClick mcqIconsConfig)
  \/ exists produced,
      generateProduced iconFailWorld mcqIconsConfig
        (dispatch iconFailWorld GenerateClick mcqIconsConfig) produced.
Proof. apply (generate_all_or_nothing iconFailWorld mcqIconsConfig). reflexivity. Defined.

(** X2.  Whatever the services answer, a click on the generate button
    with an accepted input leaves both viewers at their start (first card,
    front shown, quiz at its first question with score 0) and does not touch
    the input cells, the history panel flag, the theme or the pending
    timers. *)
Theorem generate_resets_viewers_keeps_inputs (w : World) (c : Config) :
  emptyInput (app c) = false ->
  viewersInitial (app (dispatch w GenerateClick c))
  /\ inputsKept (app c) (app (dispatch w GenerateClick c))
  /\ timers (dispatch w GenerateClick c) = timers c.
Proof.
  intros He. cbn [dispatch].
  destruct (handleGenerate_cases w c) as [[He' _] | (_ & Hk & Hv & Ht & _)];
    [congruence | auto].
Qed.

Lemma generate_resets_viewers_keeps_inputs_witness :
  viewersInitial (app (dispatch exampleWorld GenerateClick mcqTextConfig))
  /\ inputsKept (app mcqTextConfig) (app (dispatch exampleWorld GenerateClick mcqTextConfig))
  /\ timers (dispatch exampleWorld GenerateClick mcqTextConfig) = timers mcqTextConfig.
Proof.
  apply (generate_resets_viewers_keeps_inputs exampleWorld mcqTextConfig). reflexivity.
Defined.

(** X3.  After a successful generation in MCQ mode the quiz is on the
    page, over a non-empty list of questions, in its initial state: the quiz
    invariant holds from the first render. *)
Theorem successful_mcq_generation_starts_quiz (w : World) (c : Config) :
  generationMode (app c) = MCQs ->
  succeeded (dispatch w GenerateClick c) ->
  mcqsShown (app (dispatch w GenerateClick c)) = true
  /\ flashcards (app (dispatch w GenerateClick c)) = []
  /\ quizInitial (app (dispatch w GenerateClick c))
  /\ quizInv (app (dispatch w GenerateClick c)).
Proof.
  intros Hmode [Hload Herr]. cbn [dispatch] in *.
  destruct (handleGenerate_cases w c) as [[_ E] | (_ & Hk & (_ & _ & Hq) & _ & H)].
  - rewrite E in Herr. cbn in Herr. discriminate.
  - destruct H as [(_ & _ & _ & _ & [H | H]) | (produced & Hne & Hs & _)]; [congruence..|].
    rewrite Hmode in Hs. destruct Hs as [Hm Hf].
    destruct Hk as (_ & Hgm & _).
    assert (Hne' : mcqs (app (handleGenerate w c)) <> []) by (rewrite Hm; exact Hne).
    split.
    { unfold mcqsShown. rewrite Hload, Hgm, Hmode, (len_pos_ltb _ Hne'). reflexivity. }
    split; [exact Hf|]. split; [exact Hq|]. apply (quizInitial_inv _ Hne' Hq).
Qed.

Lemma successful_mcq_generation_starts_quiz_witness :
  mcqsShown (app (dispatch exampleWorld GenerateClick mcqTextConfig)) = true
  /\ flashcards (app (dispatch exampleWorld GenerateClick mcqTextConfig)) = []
  /\ quizInitial (app (dispatch exampleWorld GenerateClick mcqTextConfig))
  /\ quizInv (app (dispatch exampleWorld GenerateClick mcqTextConfig)).
Proof.
  apply (successful_mcq_generation_starts_quiz exampleWorld mcqTextConfig).
  - reflexivity.
  - split; vm_compute; reflexivity.
Defined.

(** X4.  After a successful generation, the storage holds the history
    that is in memory, the new record first, and the theme entry is as it
    was; a page mounted afresh over that storage shows the same history. *)
Theorem generate_then_reload (w : World) (c : Config) :
  succeeded (dispatch w GenerateClick c) ->
  exists produced,
    history (app (dispatch w GenerateClick c))
    = newHistoryItem (app c) w produced :: history (app c)
    /\ studyAppHistory (storage (dispatch w GenerateClick c))
       = Some (Serialized (history (app (dispatch w GenerateClick c))))
    /\ studyAppTheme (storage (dispatch w GenerateClick c)) = studyAppTheme (storage c)
    /\ history (app (loadFromStorage (initialConfig (storage (dispatch w GenerateClick c)))))
       = history (app (dispatch w GenerateClick c)).
Proof.
  intros [Hload Herr]. cbn [dispatch] in *.
  destruct (handleGenerate_cases w c) as [[_ E] | (_ & _ & _ & _ & H)].
  - rewrite E in Herr. cbn in Herr. discriminate.
  - destruct H as [(_ & _ & _ & _ & [H | H]) | (produced & _ & _ & Hh & _ & Hs)];
      [congruence..|].
    destruct Hs as [(_ & _ & Hs) | (_ & Hs & _)]; [|congruence].
    exists produced. split; [exact Hh|]. rewrite Hs. cbn.
    split; [reflexivity|]. split; [reflexivity|].
    unfold loadFromStorage. cbn.
    destruct (studyAppTheme (storage c)) as [t|]; [destruct (falsy t)|]; reflexivity.
Qed.

Lemma generate_then_reload_witness :
  exists produced,
    history (app (dispatch exampleWorld GenerateClick mcqTextConfig))
    = newHistoryItem (app mcqTextConfig) exampleWorld produced :: history (app mcqTextConfig)
    /\ studyAppHistory (storage (dispatch exampleWorld GenerateClick mcqTextConfig))
       = Some (Serialized (history (app (dispatch exampleWorld GenerateClick mcqTextConfig))))
    /\ studyAppTheme (storage (dispatch exampleWorld GenerateClick mcqTextConfig))
       = studyAppTheme (storage mcqTextConfig)
    /\ history (app (loadFromStorage
                       (initialConfig
                          (storage (dispatch exampleWorld GenerateClick mcqTextConfig)))))
       = history (app (dispatch exampleWorld GenerateClick mcqTextConfig)).
Proof.
  apply (generate_then_reload exampleWorld mcqTextConfig).
  split; vm_compute; reflexivity.
Defined.

(** X5.  A successful generation makes exactly one text-generation
    request, whose parts are the input part followed by the prompt of the
    mode, then, when icons are requested, one image request per served item,
    in the order of the items, prompted by the item's question; nothing is
    logged.  Without the icon toggle no image request is made. *)
Theorem successful_generation_requests (w : World) (c : Config) :
  succeeded (dispatch w GenerateClick c) ->
  exists part served,
    contentPart (app c) w = Fulfilled part
    /\ generateContent w = TextResolved (ParsedArray served)
    /\ effects (dispatch w GenerateClick c)
       = (effects c
            ++ CallGenerateContent (generationMode (app c))
                 [part; TextPart (promptOf (generationMode (app c)))]
            :: (if generateIcons (app c)
                then map (fun item => CallGenerateImages (iconPrompt item)) served
                else []))%list.
Proof.
  intros [Hload Herr]. cbn [dispatch] in *.
  unfold handleGenerate, handleGenerate_try, handleParsed, showAndSave in *.
  destruct (emptyInput (app c)); [cbn in Herr; discriminate|].
  destruct (contentPart (app c) w) as [part|e|];
    [|cbn in Herr; discriminate|cbn in Hload; discriminate].
  destruct (generateContent w) as [|[| |served]]; try (cbn in Herr; discriminate).
  destruct (0 <? len served); [|cbn in Herr; discriminate].
  exists part, served. split; [reflexivity|]. split; [reflexivity|].
  destruct (generateIcons (app c)).
  - destruct (enrich w served); [cbn in Herr; discriminate|].
    destruct (setItemThrows w); [cbn in Herr; discriminate|].
    destruct (generationMode (app c)); cbn; now rewrite <- app_assoc.
  - destruct (setItemThrows w); [cbn in Herr; discriminate|].
    destruct (generationMode (app c)); reflexivity.
Qed.

Lemma successful_generation_requests_witness :
  exists part served,
    contentPart (app mcqTextConfig) exampleWorld = Fulfilled part
    /\ generateContent exampleWorld = TextResolved (ParsedArray served)
    /\ effects (dispatch exampleWorld GenerateClick mcqTextConfig)
       = (effects mcqTextConfig
            ++ CallGenerateContent (generationMode (app mcqTextConfig))
                 [part; TextPart (promptOf (generationMode (app mcqTextConfig)))]
            :: (if generateIcons (app mcqTextConfig)
                then map (fun item => CallGenerateImages (iconPrompt item)) served
                else []))%list.
Proof.
  apply (successful_generation_requests exampleWorld mcqTextConfig).
  split; vm_compute; reflexivity.
Defined.

(** X6.  With the input accepted and its part built: a rejected
    request or an unparseable response is logged and shows the generic
    error; a [null] or empty array shows the could-not-generate message
    and logs nothing.  In the four cases the only request made is the text
    one, nothing is shown or recorded, and loading is over. *)
Theorem generation_failure_messages (w : World) (c : Config) (part : Part) :
  emptyInput (app c) = false ->
  contentPart (app c) w = Fulfilled part ->
  let request := CallGenerateContent (generationMode (app c))
                   [part; TextPart (promptOf (generationMode (app c)))] in
  let c' := dispatch w GenerateClick c in
  (generateContent w = TextRejected ->
   error (app c') = Some msgGenerateFailed
   /\ effects c' = (effects c ++ [request; ConsoleError ServiceRejection])%list
   /\ generateAborted c c' /\ isLoading (app c') = false)
  /\ (generateContent w = TextResolved ParseThrows ->
      error (app c') = Some msgGenerateFailed
      /\ effects c' = (effects c ++ [request; ConsoleError SyntaxError])%list
      /\ generateAborted c c' /\ isLoading (app c') = false)
  /\ (generateContent w = TextResolved ParsedNull
      \/ generateContent w = TextResolved (ParsedArray []) ->
      error (app c') = Some msgCouldNotGenerate
      /\ effects c' = (effects c ++ [request])%list
      /\ generateAborted c c' /\ isLoading (app c') = false).
Proof.
  intros He Hpart. cbv zeta. cbn [dispatch].
  unfold handleGenerate, handleGenerate_try, handleParsed. rewrite He, Hpart.
  assert (Hno : forall m : string, Some m <> None) by discriminate.
  split; [|split].
  - intros ->. unfold generateAborted. cbn. rewrite <- app_assoc.
    repeat split; auto.
  - intros ->. unfold generateAborted. cbn. rewrite <- app_assoc.
    repeat split; auto.
  - intros [-> | ->]; unfold generateAborted; cbn; repeat split; auto.
Qed.

Lemma generation_failure_messages_witness :
  error (app (dispatch rejectingWorld GenerateClick mcqTextConfig)) = Some msgGenerateFailed.
Proof.
  assert (He : emptyInput (app mcqTextConfig) = false) by reflexivity.
  assert (Hp : contentPart (app mcqTextConfig) rejectingWorld = Fulfilled (TextPart "France"))
    by reflexivity.
  pose proof (generation_failure_messages rejectingWorld mcqTextConfig _ He Hp) as H.
  cbv zeta in H. destruct H as [H _]. apply H. reflexivity.
Defined.

(** ** Image input and icons *)

Lemma afterComma_prefix (prefix rest : string) :
  noComma prefix = true ->
  afterComma (prefix ++ String "," rest) = Some rest.
Proof.
  induction prefix as [|ch prefix IH]; cbn; [reflexivity|].
  destruct (Ascii.eqb ch ","); cbn; [discriminate | exact IH].
Qed.

Lemma untilComma_noComma (s : string) : noComma s = true -> untilComma s = s.
Proof.
  induction s as [|ch s IH]; cbn; [reflexivity|].
  destruct (Ascii.eqb ch ","); cbn; [discriminate|].
  intros H. now rewrite IH.
Qed.

(** X7.  [split(",")[1]] on a data URL: when the header has no comma
    the result is the text after the first comma up to the next one; for a
    base64 payload, which has no comma, it is the whole payload.  A text
    without any comma gives [undefined]. *)
Theorem splitComma1_payload (header rest : string) :
  noComma header = true ->
  splitComma1 (header ++ String "," rest) = Some (untilComma rest)
  /\ (noComma rest = true -> splitComma1 (header ++ String "," rest) = Some rest)
  /\ splitComma1 header = None.
Proof.
  intros Hh. unfold splitComma1. rewrite (afterComma_prefix _ _ Hh). cbn.
  split; [reflexivity|]. split.
  - intros Hr. now rewrite (untilComma_noComma _ Hr).
  - clear rest. induction header as [|ch header IH]; cbn in *; [reflexivity|].
    destruct (Ascii.eqb ch ","); cbn in *; [discriminate | now apply IH].
Qed.

Lemma splitComma1_payload_witness :
  splitComma1 ("data:image/png;base64" ++ String "," "iVBOR") = Some "iVBOR".
Proof.
  destruct (splitComma1_payload "data:image/png;base64" "iVBOR") as (_ & H & _).
  - reflexivity.
  - apply H. reflexivity.
Defined.

(** X8.  In image mode with a file selected, when the file cannot be
    read ([reader.result] is [null]) the run never settles: the reset of
    lines 85 to 98 is all that happens, the page stays in the loading
    state, no request is made, nothing is caught or shown as an error, and
    history and storage are as before. *)
Theorem unreadable_file_never_settles (w : World) (c : Config) (f : File) :
  inputType (app c) = Image ->
  image (app c) = Some f ->
  readerResult w = None ->
  dispatch w GenerateClick c
  = (c |> update handleGenerate_reset |> log (Uncaught TypeError))
  /\ isLoading (app (dispatch w GenerateClick c)) = true
  /\ error (app (dispatch w GenerateClick c)) = None
  /\ generateDisabled (app (dispatch w GenerateClick c)) = true
  /\ generateAborted c (dispatch w GenerateClick c).
Proof.
  intros Ht Hi Hr. cbn [dispatch].
  assert (E : handleGenerate w c
              = (c |> update handleGenerate_reset |> log (Uncaught TypeError))).
  { unfold handleGenerate, emptyInput, handleGenerate_try, contentPart, fileToGenerativePart.
    rewrite Ht, Hi, Hr. reflexivity. }
  rewrite E. unfold generateAborted, generateDisabled. cbn. repeat split. now left.
Qed.

Lemma unreadable_file_never_settles_witness :
  isLoading (app (dispatch exampleWorld GenerateClick imageConfig)) = true.
Proof.
  destruct (unreadable_file_never_settles exampleWorld imageConfig leafFile)
    as (_ & H & _); [reflexivity | reflexivity | reflexivity | exact H].
Defined.

(** X9.  In image mode with a readable file, the request carries the
    file as inline data: the text after the comma of the data URL, with the
    MIME type of the file, followed by the prompt of the mode; and the
    record of a successful run keeps the image preview as its input
    content. *)
Theorem image_generation_request (w : World) (c : Config) (f : File) (dataURL : string) :
  inputType (app c) = Image ->
  image (app c) = Some f ->
  readerResult w = Some dataURL ->
  (exists more,
      effects (dispatch w GenerateClick c)
      = (effects c
           ++ CallGenerateContent (generationMode (app c))
                [InlineData (splitComma1 dataURL) (file_type f);
                 TextPart (promptOf (generationMode (app c)))]
           :: more)%list)
  /\ (succeeded (dispatch w GenerateClick c) ->
      exists record,
        hd_error (history (app (dispatch w GenerateClick c))) = Some record
        /\ HistoryItem.inputType record = Image
        /\ HistoryItem.inputContent record = imagePreview (app c)
        /\ HistoryItem.theme record = Some (theme (app c))
        /\ HistoryItem.generationMode record = generationMode (app c)).
Proof.
  intros Ht Hi Hr. split.
  - cbn [dispatch]. unfold handleGenerate.
    assert (He : emptyInput (app c) = false)
      by (unfold emptyInput; rewrite Ht, Hi; reflexivity).
    rewrite He. unfold handleGenerate_try, contentPart, fileToGenerativePart.
    rewrite Ht, Hi, Hr.
    destruct (generateContent w) as [|text].
    + exists [ConsoleError ServiceRejection]. cbn. now rewrite <- app_assoc.
    + match goal with
      | |- context [handleParsed ?cl w text ?c1] =>
          destruct (handleParsed_effects cl w text c1) as [more Hmore];
          destruct (handleParsed cl w text c1) as [c2 [|e|]]
      end; cbn [fst] in Hmore; cbn in Hmore |- *; rewrite Hmore, <- ?app_assoc; cbn.
      * now exists more.
      * exists (more ++ [ConsoleError e])%list. rewrite <- ?app_assoc. reflexivity.
      * now exists more.
  - intros [Hload Herr]. cbn [dispatch] in *.
    destruct (handleGenerate_cases w c) as [[_ E] | (_ & _ & _ & _ & H)].
    + rewrite E in Herr. cbn in Herr. discriminate.
    + destruct H as [(_ & _ & _ & _ & [H | H]) | (produced & _ & _ & Hh & _)];
        [congruence..|].
      exists (newHistoryItem (app c) w produced). rewrite Hh. cbn. rewrite Ht. auto.
Qed.

Lemma image_generation_request_witness :
  exists more,
    effects (dispatch readableWorld GenerateClick imageConfig)
    = (effects imageConfig
         ++ CallGenerateContent (generationMode (app imageConfig))
              [InlineData (splitComma1 "data:image/png;base64,iVBOR") (file_type leafFile);
               TextPart (promptOf (generationMode (app imageConfig)))]
         :: more)%list.
Proof.
  destruct (image_generation_request readableWorld imageConfig leafFile
              "data:image/png;base64,iVBOR") as [H _];
    [reflexivity | reflexivity | reflexivity | exact H].
Defined.

Lemma attachIcons_nth (items : list Item) (responses : list IconResponse)
  (enriched : list Item) :
  attachIcons items responses = inr enriched ->
  length enriched = length items
  /\ forall i item, nth_error items i = Some item ->
       exists imageBytes others,
         nth_error responses i = Some (IconResolved (imageBytes :: others))
         /\ nth_error enriched i = Some (withIcon item imageBytes).
Proof.
  revert responses enriched. induction items as [|x items IH]; intros responses enriched.
  - cbn. intros H. injection H as <-. split; [reflexivity|].
    intros [|i] item; discriminate.
  - cbn. destruct responses as [|[|[|imageBytes images]] responses]; try discriminate.
    destruct (attachIcons items responses) as [e|rest] eqn:Hrest; [discriminate|].
    intros H. injection H as <-. destruct (IH _ _ Hrest) as [Hl Hn].
    split; [cbn; now rewrite Hl|].
    intros [|i] item Hi; cbn in *.
    + injection Hi as <-. now exists imageBytes, images.
    + now apply Hn.
Qed.

Lemma attachIcons_TypeError (items : list Item) (responses : list IconResponse) (e : Exn) :
  attachIcons items responses = inl e -> e = TypeError.
Proof.
  revert responses. induction items as [|x items IH]; intros responses; cbn; [discriminate|].
  destruct responses as [|[|[|imageBytes images]] responses];
    try (intros H; injection H as <-; reflexivity).
  destruct (attachIcons items responses) as [e'|rest] eqn:Hrest; [|discriminate].
  intros H. injection H as <-. now apply (IH responses).
Qed.

Lemma attachIcons_missing (items : list Item) (responses : list IconResponse) (i : nat) :
  (i < length items)%nat -> nth_error responses i = Some (IconResolved []) ->
  attachIcons items responses = inl TypeError.
Proof.
  revert responses i. induction items as [|x items IH]; intros responses i Hi Hn.
  - cbn in Hi. lia.
  - cbn. destruct responses as [|[|[|imageBytes images]] responses]; try reflexivity.
    destruct i as [|i]; [cbn in Hn; discriminate|].
    cbn in Hi, Hn. rewrite (IH responses i); [reflexivity | lia | exact Hn].
Qed.

Lemma iconResponsesOf_nth (w : World) (items : list Item) (i : nat) :
  (i < length items)%nat ->
  nth_error (iconResponsesOf w items) i = Some (generateImages w i).
Proof.
  intros Hi. unfold iconResponsesOf.
  rewrite nth_error_map, nth_error_seq.
  destruct (Nat.ltb_spec i (length items)); [reflexivity | lia].
Qed.

(** X10.  When the icon step succeeds, the enriched list has as many
    items as were served, and the item at each position is the served item
    at that position with, as icon, the PNG data URI made of the first image
    of the response to that position's request: order and the one-to-one
    pairing of requests and items are kept. *)
Theorem enrich_keeps_order (w : World) (items enriched : list Item) :
  enrich w items = inr enriched ->
  length enriched = length items
  /\ forall i item, nth_error items i = Some item ->
       exists imageBytes others,
         generateImages w i = IconResolved (imageBytes :: others)
         /\ nth_error enriched i
            = Some {| question := question item; answer := answer item;
                      options := options item; correctAnswer := correctAnswer item;
                      icon := Some ("data:image/png;base64," ++ imageBytes)%string |}.
Proof.
  unfold enrich. destruct (firstRejected 0 (iconResponsesOf w items)); [discriminate|].
  intros H. destruct (attachIcons_nth _ _ _ H) as [Hl Hn]. split; [exact Hl|].
  intros i item Hi. destruct (Hn i item Hi) as (imageBytes & others & Hr & He).
  exists imageBytes, others. split; [|exact He].
  assert (Hlt : (i < length items)%nat) by (apply nth_error_Some; congruence).
  rewrite (iconResponsesOf_nth w items i Hlt) in Hr. congruence.
Qed.

Lemma enrich_keeps_order_witness :
  length [withIcon franceItem "iVBOR"; withIcon romeItem "iVBOR"]
  = length [franceItem; romeItem].
Proof.
  destruct (enrich_keeps_order exampleWorld [franceItem; romeItem]
              [withIcon franceItem "iVBOR"; withIcon romeItem "iVBOR"]) as [H _];
    [reflexivity | exact H].
Defined.

(** X11.  When every icon request resolves but one of the responses
    has no image, reading [generatedImages[0].image] throws: the icon step
    fails with a [TypeError] and, as for a rejected request, the whole
    generation is aborted with the generic error: nothing is shown or
    recorded. *)
Theorem icon_without_image_aborts (w : World) (c : Config) (part : Part)
  (items : list Item) (i : nat) :
  emptyInput (app c) = false ->
  generateIcons (app c) = true ->
  contentPart (app c) w = Fulfilled part ->
  generateContent w = TextResolved (ParsedArray items) ->
  (forall j, (j < length items)%nat -> generateImages w j <> IconRejected) ->
  (i < length items)%nat ->
  generateImages w i = IconResolved [] ->
  enrich w items = inl TypeError
  /\ error (app (dispatch w GenerateClick c)) = Some msgGenerateFailed
  /\ isLoading (app (dispatch w GenerateClick c)) = false
  /\ generateAborted c (dispatch w GenerateClick c)
  /\ exists before,
      effects (dispatch w GenerateClick c) = (before ++ [ConsoleError TypeError])%list.
Proof.
  intros He Hicons Hpart Hgen Hall Hi Hnone.
  assert (Hen : enrich w items = inl TypeError).
  { unfold enrich.
    pose proof (firstRejected_spec (generateImages w) (length items) 0) as Hspec.
    fold (iconResponsesOf w items) in Hspec.
    destruct (firstRejected 0 (iconResponsesOf w items)) as [j|].
    - destruct Hspec as [Hj Hr]. exfalso. apply (Hall j); [lia | exact Hj].
    - apply (attachIcons_missing items _ i Hi).
      rewrite (iconResponsesOf_nth w items i Hi). now rewrite Hnone. }
  split; [exact Hen|].
  assert (Hlen : (0 <? len items) = true).
  { apply len_pos_ltb. intros ->. cbn in Hi. lia. }
  cbn [dispatch]. unfold handleGenerate, handleGenerate_try, handleParsed.
  rewrite He, Hpart, Hgen, Hlen, Hicons, Hen. unfold generateAborted. cbn.
  split; [reflexivity|]. split; [reflexivity|].
  split; [repeat split; right; discriminate|].
  eexists. reflexivity.
Qed.

Lemma icon_without_image_aborts_witness :
  enrich noImageWorld [franceItem; romeItem] = inl TypeError
  /\ error (app (dispatch noImageWorld GenerateClick mcqIconsConfig)) = Some msgGenerateFailed
  /\ isLoading (app (dispatch noImageWorld GenerateClick mcqIconsConfig)) = false
  /\ generateAborted mcqIconsConfig (dispatch noImageWorld GenerateClick mcqIconsConfig)
  /\ exists before,
      effects (dispatch noImageWorld GenerateClick mcqIconsConfig)
      = (before ++ [ConsoleError TypeError])%list.
Proof.
  apply (icon_without_image_aborts noImageWorld mcqIconsConfig (TextPart "Capitals")
           [franceItem; romeItem] 1%nat).
  - reflexivity.
  - reflexivity.
  - reflexivity.
  - reflexivity.
  - intros [|[|j]] Hj; cbn; try discriminate; cbn in Hj; lia.
  - cbn. lia.
  - reflexivity.
Defined.

(** ** Storage, theme and history *)

(** Case analysis over the handlers [dispatch] calls, the generate
    button apart. *)
Ltac open_handlers :=
  unfold handleThemeChange, loadFromStorage, handleImageChange, navigateCard, timerFires,
    handleOptionClick_throws, handleOptionClick, handleNextQuestion,
    handleViewHistoryItem, handleClearHistory;
  repeat (
    cbv beta delta [update log logAll setStorage setTimers];
    cbn [app storage timers effects];
    match goal with
    | |- context [if ?b then _ else _] => let E := fresh "E" in destruct b eqn:E
    | |- context [match ?x with _ => _ end] =>
        match type of x with
        | AppState => fail 1
        | Config => fail 1
        | _ => let E := fresh "E" in destruct x eqn:E
        end
    end);
  cbn.

(** X12.  Choosing a theme sets it in memory and leaves the history
    alone.  When the write succeeds the theme entry of the storage holds
    it, and a page mounted afresh over that storage starts with this theme,
    provided it is not the empty string and the stored history can be
    parsed.  When the write throws, the exception is not caught: the theme
    is changed in memory only and the storage is as before. *)
Theorem theme_change_persists (w : World) (c : Config) (selectedTheme : string) :
  let c' := dispatch w (ThemeChange selectedTheme) c in
  theme (app c') = selectedTheme
  /\ history (app c') = history (app c)
  /\ studyAppHistory (storage c') = studyAppHistory (storage c)
  /\ (setItemThrows w = false ->
      studyAppTheme (storage c') = Some selectedTheme
      /\ effects c' = effects c
      /\ (selectedTheme <> "" -> studyAppHistory (storage c) <> Some Unparseable ->
          theme (app (loadFromStorage (initialConfig (storage c')))) = selectedTheme))
  /\ (setItemThrows w = true ->
      storage c' = storage c
      /\ effects c' = (effects c ++ [Uncaught QuotaExceededError])%list).
Proof.
  cbv zeta. cbn [dispatch]. unfold handleThemeChange.
  destruct (setItemThrows w); cbn.
  - repeat split; try discriminate; reflexivity.
  - split; [reflexivity|]. split; [reflexivity|]. split; [reflexivity|].
    split; [|discriminate]. intros _. split; [reflexivity|]. split; [reflexivity|].
    intros Hne Hok. apply String.eqb_neq in Hne.
    unfold loadFromStorage. cbn.
    destruct (studyAppHistory (storage c)) as [[|records]|]; [congruence| |];
      cbn; unfold falsy; rewrite Hne; reflexivity.
Qed.

Lemma theme_change_persists_witness :
  theme (app (loadFromStorage
                (initialConfig
                   (storage (dispatch exampleWorld (ThemeChange "ocean") quizConfig)))))
  = "ocean".
Proof.
  pose proof (theme_change_persists exampleWorld quizConfig "ocean") as H.
  cbv zeta in H. destruct H as (_ & _ & _ & H & _).
  destruct (H eq_refl) as (_ & _ & H'). apply H'; discriminate.
Defined.

(** X13.  The mount effect reads history and theme inside one [try]:
    when the stored history cannot be parsed, the exception is logged and
    the stored theme is not read either; the state of the page is left as
    it was and the storage is not repaired. *)
Theorem unparseable_history_skips_theme (c : Config) (w : World) :
  studyAppHistory (storage c) = Some Unparseable ->
  dispatch w Mount c = (c |> log (ConsoleError SyntaxError))
  /\ app (dispatch w Mount c) = app c
  /\ storage (dispatch w Mount c) = storage c.
Proof.
  intros H. cbn [dispatch]. unfold loadFromStorage. rewrite H. repeat split.
Qed.

Lemma unparseable_history_skips_theme_witness :
  theme (app (dispatch exampleWorld Mount
                (initialConfig {| studyAppHistory := Some Unparseable;
                                  studyAppTheme := Some "dark" |})))
  = "default".
Proof.
  destruct (unparseable_history_skips_theme
              (initialConfig {| studyAppHistory := Some Unparseable;
                                studyAppTheme := Some "dark" |}) exampleWorld)
    as (_ & H & _); [reflexivity|].
  rewrite H. reflexivity.
Defined.

(** X14.  The storage is written by three controls only: the theme
    selector (theme entry), the generate button (history entry) and the
    clear button (history entry).  Every other event, opening a history
    record included, leaves the storage as it is. *)
Theorem storage_writers (w : World) (ev : Event) (c : Config) :
  match ev with
  | ThemeChange _ =>
      studyAppHistory (storage (dispatch w ev c)) = studyAppHistory (storage c)
  | GenerateClick | ClearHistoryClick =>
      studyAppTheme (storage (dispatch w ev c)) = studyAppTheme (storage c)
  | _ => storage (dispatch w ev c) = storage c
  end.
Proof.
  destruct ev; cbn [dispatch]; try reflexivity; try (open_handlers; reflexivity).
  destruct (handleGenerate_cases w c) as [[_ ->] | (_ & _ & _ & _ & H)]; [reflexivity|].
  destruct H as [(_ & _ & _ & -> & _) | (produced & _ & _ & _ & _ & H)]; [reflexivity|].
  destruct H as [(_ & _ & ->) | (_ & _ & ->)]; reflexivity.
Qed.






(** X17.  Only the generate button touches the loading flag.  So once
    a run is pending (the file could not be read), the flag stays set
    through every later event the page offers: the generate button stays
    disabled and neither viewer is rendered. *)
Theorem loading_is_sticky (w : World) (ev : Event) (c : Config) :
  (ev <> GenerateClick -> isLoading (app (dispatch w ev c)) = isLoading (app c))
  /\ (isLoading (app c) = true -> offered (app c) ev ->
      isLoading (app (dispatch w ev c)) = true
      /\ generateDisabled (app (dispatch w ev c)) = true
      /\ flashcardsShown (app (dispatch w ev c)) = false
      /\ mcqsShown (app (dispatch w ev c)) = false).
Proof.
  assert (Hframe : ev <> GenerateClick ->
                   isLoading (app (dispatch w ev c)) = isLoading (app c)).
  { destruct ev; intros Hne; try congruence; cbn [dispatch]; try reflexivity;
      open_handlers; reflexivity. }
  split; [exact Hframe|].
  intros Hl Hoff.
  assert (Hl' : isLoading (app (dispatch w ev c)) = true).
  { destruct (ev) eqn:Eev; try (rewrite Hframe; [exact Hl | discriminate]).
    cbn in Hoff. unfold generateDisabled in Hoff. rewrite Hl in Hoff. discriminate. }
  unfold generateDisabled, flashcardsShown, mcqsShown. rewrite Hl'. cbn.
  rewrite !andb_false_r. auto.
Qed.

Lemma loading_is_sticky_witness :
  isLoading (app (dispatch exampleWorld (InputTypeClick Text)
                    (dispatch exampleWorld GenerateClick imageConfig))) = true.
Proof.
  destruct (loading_is_sticky exampleWorld (InputTypeClick Text)
              (dispatch exampleWorld GenerateClick imageConfig)) as [_ H].
  apply H; [reflexivity | exact I].
Defined.

(** ** Sessions *)















(** ** More on the flashcard viewer *)

Lemma settledCard_dispatch (w : World) (ev : Event) (deckLength : Z) (c : Config) :
  navEvent ev ->
  len (flashcards (app c)) = deckLength ->
  Forall (fun t => flashcardsLength t = deckLength) (timers c) ->
  len (flashcards (app (dispatch w ev c))) = deckLength
  /\ Forall (fun t => flashcardsLength t = deckLength) (timers (dispatch w ev c))
  /\ settledCard (dispatch w ev c)
     = fold_left (clampMove deckLength) (clickDirections [ev]) (settledCard c).
Proof.
  intros Hev Hl Ht.
  assert (Hclick : forall dir,
             len (flashcards (app (navigateCard dir c))) = deckLength
             /\ Forall (fun t => flashcardsLength t = deckLength) (timers (navigateCard dir c))
             /\ settledCard (navigateCard dir c)
                = fold_left (clampMove deckLength) (clickDirections [NavigateClick dir])
                    (settledCard c)).
  { intros dir. unfold navigateCard, settledCard. cbn.
    split; [exact Hl|]. split.
    - apply Forall_app. split; [exact Ht|]. constructor; [exact Hl | constructor].
    - rewrite fold_left_app. cbn. unfold clampMove. now rewrite Hl. }
  destruct Hev as [-> | [-> | ->]]; cbn [dispatch]; try apply Hclick.
  unfold timerFires, settledCard. destruct (timers c) as [|t pending] eqn:Etm.
  - rewrite ?Etm. cbn. rewrite ?Etm. auto.
  - inversion Ht as [|t' pending' Hhead Htail Et]. cbn. auto.
Qed.

(** X21.  Over an unchanged deck and starting without pending timers,
    the index the viewer settles on depends only on the order of the arrow
    clicks, not on when their timers fire: it is the start index moved by
    each clicked direction in turn, a move that would leave the deck being
    skipped.  In particular, once no timer is pending, [currentCard] is
    that index. *)
Theorem navigation_settles_by_click_order (w : World) (evs : list Event) (c : Config) :
  timers c = [] ->
  Forall navEvent evs ->
  settledCard (run w evs c)
  = fold_left (clampMove (len (flashcards (app c)))) (clickDirections evs)
      (currentCard (app c))
  /\ (timers (run w evs c) = [] ->
      currentCard (app (run w evs c))
      = fold_left (clampMove (len (flashcards (app c)))) (clickDirections evs)
          (currentCard (app c))).
Proof.
  intros Htm Hevs.
  assert (Hmain : forall evs c deckLength,
             Forall navEvent evs ->
             len (flashcards (app c)) = deckLength ->
             Forall (fun t => flashcardsLength t = deckLength) (timers c) ->
             settledCard (run w evs c)
             = fold_left (clampMove deckLength) (clickDirections evs) (settledCard c)).
  { clear. intros evs. induction evs as [|ev evs IH]; intros c deckLength Hevs Hl Ht.
    - reflexivity.
    - apply Forall_cons_iff in Hevs as [Hev Hrest].
      destruct (settledCard_dispatch w ev deckLength c Hev Hl Ht) as (Hl' & Ht' & Hs').
      cbn [run]. rewrite (IH _ deckLength Hrest Hl' Ht'), Hs'.
      assert (E : clickDirections (ev :: evs)
                  = (clickDirections [ev] ++ clickDirections evs)%list)
        by (unfold clickDirections; cbn; now rewrite app_nil_r).
      rewrite E, fold_left_app. reflexivity. }
  assert (E : settledCard (run w evs c)
              = fold_left (clampMove (len (flashcards (app c)))) (clickDirections evs)
                  (currentCard (app c))).
  { rewrite (Hmain evs c (len (flashcards (app c))) Hevs eq_refl).
    - unfold settledCard. rewrite Htm. reflexivity.
    - rewrite Htm. constructor. }
  split; [exact E|].
  intros Hdone. rewrite <- E. unfold settledCard. rewrite Hdone. reflexivity.
Qed.

Lemma navigation_settles_by_click_order_witness :
  settledCard (run exampleWorld [NavigateClick 1; NavigateClick 1; TimerFires] deckConfig)
  = fold_left (clampMove (len (flashcards (app deckConfig))))
      (clickDirections [NavigateClick 1; NavigateClick 1; TimerFires])
      (currentCard (app deckConfig)).
Proof.
  destruct (navigation_settles_by_click_order exampleWorld
              [NavigateClick 1; NavigateClick 1; TimerFires] deckConfig) as [H _].
  - reflexivity.
  - repeat first [apply Forall_nil | apply Forall_cons; [unfold navEvent; auto |]].
  - exact H.
Defined.

Lemma at_index_Some_range {A : Type} (xs : list A) (i : Z) (x : A) :
  at_index xs i = Some x -> 0 <= i < len xs.
Proof.
  unfold at_index, len. destruct (i <? 0) eqn:E; [discriminate|].
  apply Z.ltb_ge in E. intros H.
  assert (Hlt : (Z.to_nat i < length xs)%nat) by (apply nth_error_Some; congruence).
  lia.
Qed.

(** X22.  An arrow the flashcard viewer offers always moves: with no
    timer pending, a click on an enabled arrow followed by its timer changes
    [currentCard] by exactly the arrow's direction and stays in the deck.
    The previous arrow is not offered on the first card, nor the next arrow
    on the last one. *)
Theorem enabled_arrow_moves (w : World) (c : Config) (dir : Z) :
  timers c = [] ->
  In (NavigateClick dir) (renderFlashcards (app c)) ->
  (dir = -1 \/ dir = 1)
  /\ currentCard (app (run w [NavigateClick dir; TimerFires] c)) = currentCard (app c) + dir
  /\ 0 <= currentCard (app c) + dir < len (flashcards (app c))
  /\ (dir = -1 -> currentCard (app c) <> 0)
  /\ (dir = 1 -> currentCard (app c) <> len (flashcards (app c)) - 1).
Proof.
  intros Htm Hin. unfold renderFlashcards in Hin.
  destruct (at_index (flashcards (app c)) (currentCard (app c))) as [card|] eqn:Hat;
    [|contradiction].
  apply at_index_Some_range in Hat.
  assert (Hd : (dir = -1 /\ currentCard (app c) <> 0)
               \/ (dir = 1 /\ currentCard (app c) <> len (flashcards (app c)) - 1)).
  { destruct Hin as [Hin | Hin]; [discriminate|].
    apply in_app_or in Hin. destruct Hin as [Hin | Hin].
    - destruct (currentCard (app c) =? 0) eqn:E; [contradiction|].
      apply Z.eqb_neq in E. destruct Hin as [Hin | []]. injection Hin as <-. now left.
    - destruct (currentCard (app c) =? len (flashcards (app c)) - 1) eqn:E; [contradiction|].
      apply Z.eqb_neq in E. destruct Hin as [Hin | []]. injection Hin as <-. now right. }
  assert (Hr : 0 <= currentCard (app c) + dir < len (flashcards (app c)))
    by (destruct Hd as [[-> ?] | [-> ?]]; lia).
  split; [tauto|]. split; [|split; [exact Hr|split; intros ->; destruct Hd; lia]].
  cbn [run dispatch]. unfold navigateCard, timerFires. cbn. rewrite Htm. cbn.
  unfold navigateCard_updater. cbn.
  destruct (0 <=? currentCard (app c) + dir) eqn:H0;
    destruct (currentCard (app c) + dir <? len (flashcards (app c))) eqn:H1;
    cbn [andb]; try reflexivity;
    try apply Z.leb_gt in H0; try apply Z.ltb_ge in H1; lia.
Qed.

Lemma enabled_arrow_moves_witness :
  currentCard (app (run exampleWorld [NavigateClick 1; TimerFires] deckConfig))
  = currentCard (app deckConfig) + 1.
Proof.
  destruct (enabled_arrow_moves exampleWorld deckConfig 1) as (_ & H & _).
  - reflexivity.
  - right. left. reflexivity.
  - exact H.
Defined.

(** X23.  The timer of an arrow click checks the bound against the deck
    of the render of the click.  If, before the timer fires, a history
    record holding a single flashcard is opened over a deck of two cards or
    more, the timer of a next-arrow click still moves the index from 0 to 1:
    the viewer is then on the page with [currentCard] outside the deck, and
    [renderFlashcards] finds no card to read. *)
Theorem stale_timer_leaves_deck (w : World) (c : Config) (item : HistoryItem.t)
  (card : Item) :
  timers c = [] ->
  1 < len (flashcards (app c)) ->
  HistoryItem.generationMode item = Flashcards ->
  HistoryItem.generatedData item = [card] ->
  let c' := run w [NavigateClick 1; HistoryOpen; HistoryItemClick item; TimerFires] c in
  flashcards (app c') = [card]
  /\ currentCard (app c') = 1
  /\ at_index (flashcards (app c')) (currentCard (app c')) = None
  /\ renderFlashcards (app c') = []
  /\ (isLoading (app c) = false -> flashcardsShown (app c') = true).
Proof.
  intros Htm Hlen Hmode Hdata. cbv zeta.
  cbn [run dispatch]. unfold navigateCard, timerFires. cbn. rewrite Htm. cbn.
  unfold handleViewHistoryItem. rewrite Hmode, Hdata. cbn.
  unfold navigateCard_updater. cbn.
  apply Z.ltb_lt in Hlen. rewrite Hlen.
  unfold renderFlashcards, flashcardsShown. cbn.
  repeat split. intros ->. reflexivity.
Qed.

Lemma stale_timer_leaves_deck_witness :
  at_index
    (flashcards (app (run exampleWorld
                        [NavigateClick 1; HistoryOpen; HistoryItemClick oneCardRecord;
                         TimerFires] deckConfig)))
    (currentCard (app (run exampleWorld
                         [NavigateClick 1; HistoryOpen; HistoryItemClick oneCardRecord;
                          TimerFires] deckConfig)))
  = None.
Proof.
  pose proof (stale_timer_leaves_deck exampleWorld deckConfig oneCardRecord cellCard) as H.
  cbv zeta in H. destruct H as (_ & _ & H & _); [reflexivity..|exact H].
Defined.

(** ** More on the quiz *)

Lemma len_app {A : Type} (xs ys : list A) : len (xs ++ ys) = len xs + len ys.
Proof. unfold len. rewrite length_app. lia. Qed.

Lemma len_cons {A : Type} (x : A) (xs : list A) : len (x :: xs) = 1 + len xs.
Proof. unfold len. cbn [length]. lia. Qed.

Lemma at_index_middle {A : Type} (done : list A) (x : A) (rest : list A) :
  at_index (done ++ x :: rest) (len done) = Some x.
Proof.
  unfold at_index, len.
  destruct (Z.of_nat (length done) <? 0) eqn:E; [apply Z.ltb_lt in E; lia|].
  rewrite Nat2Z.id, nth_error_app2, Nat.sub_diag; [reflexivity | lia].
Qed.

Lemma correctCount_bounds (questions : list Item) (answers : list string) :
  0 <= correctCount questions answers <= len questions.
Proof.
  revert answers. induction questions as [|q qs IH]; intros answers.
  - destruct answers; cbn; unfold len; cbn; lia.
  - rewrite len_cons. destruct answers as [|a answers]; cbn [correctCount].
    + pose proof (len_nonneg qs). lia.
    + specialize (IH answers). destruct (strictEq a (correctAnswer q)); lia.
Qed.

Lemma answerAll_from (w : World) (rest : list Item) :
  forall (done : list Item) (answers : list string) (c : Config) (s : Z),
    rest <> [] -> length answers = length rest ->
    quizAt (app c) (len done) false s false (done ++ rest) ->
    quizAt (app (run w (answerAll answers) c)) (len (done ++ rest) - 1) true
           (s + correctCount rest answers) true (done ++ rest).
Proof.
  induction rest as [|q rest IH]; intros done answers c s Hne Hlen Hq; [congruence|].
  destruct answers as [|a answers]; [discriminate|].
  cbn [length] in Hlen. injection Hlen as Hlen.
  change (run w (answerAll (a :: answers)) c)
    with (run w (answerAll answers) (dispatch w NextClick (dispatch w (OptionClick a) c))).
  pose proof (select_quizAt a _ _ _ _ _ q Hq (at_index_middle done q rest)) as Q1.
  rewrite <- app_dispatch_OptionClick with (w := w) in Q1.
  pose proof (next_quizAt _ _ _ _ _ _ Q1) as Q2.
  change (handleNextQuestion (app (dispatch w (OptionClick a) c)))
    with (app (dispatch w NextClick (dispatch w (OptionClick a) c))) in Q2.
  rewrite len_app, len_cons in Q2 |- *.
  cbn [correctCount].
  destruct rest as [|q' rest].
  - destruct answers; [|discriminate]. cbn [answerAll flat_map run correctCount].
    assert (E : (len done <? len done + (1 + len (@nil Item)) - 1) = false)
      by (apply Z.ltb_ge; unfold len; cbn; lia).
    rewrite E in Q2.
    replace (len done + (1 + len (@nil Item)) - 1) with (len done)
      by (unfold len; cbn; lia).
    replace (s + ((if strictEq a (correctAnswer q) then 1 else 0) + 0))
      with (if strictEq a (correctAnswer q) then s + 1 else s)
      by (destruct (strictEq a (correctAnswer q)); lia).
    exact Q2.
  - assert (E : (len done <? len done + (1 + len (q' :: rest)) - 1) = true).
    { apply Z.ltb_lt. rewrite len_cons. pose proof (len_nonneg rest). lia. }
    rewrite E in Q2.
    assert (Hq' : quizAt (app (dispatch w NextClick (dispatch w (OptionClick a) c)))
                    (len (done ++ [q])) false
                    (if strictEq a (correctAnswer q) then s + 1 else s) false
                    ((done ++ [q]) ++ q' :: rest)).
    { rewrite len_app, len_cons, <- app_assoc.
      replace (len done + (1 + len (@nil Item))) with (len done + 1)
        by (unfold len; cbn; lia).
      exact Q2. }
    pose proof (IH (done ++ [q])%list answers _ _ ltac:(discriminate) Hlen Hq') as R.
    rewrite <- app_assoc in R.
    change ([q] ++ q' :: rest)%list with (q :: q' :: rest) in R.
    replace (len done + (1 + len (q' :: rest)) - 1)
      with (len (done ++ q :: q' :: rest) - 1)
      by (rewrite len_app, len_cons; reflexivity).
    replace (s + ((if strictEq a (correctAnswer q) then 1 else 0)
                  + correctCount (q' :: rest) answers))
      with ((if strictEq a (correctAnswer q) then s + 1 else s)
            + correctCount (q' :: rest) answers)
      by (destruct (strictEq a (correctAnswer q)); lia).
    exact R.
Qed.

(** X24.  A full pass over a quiz of any length (an option clicked,
    then the next button, for each question in turn) ends on the summary
    with a score equal to the number of questions whose clicked option is
    its [correctAnswer]; the score is between 0 and the number of
    questions, and the only control left is the try-again button. *)
Theorem answer_all_counts_correct (w : World) (c : Config) (answers : list string) :
  mcqs (app c) <> [] ->
  quizInitial (app c) ->
  length answers = length (mcqs (app c)) ->
  quizFinished (app (run w (answerAll answers) c)) = true
  /\ score (app (run w (answerAll answers) c)) = correctCount (mcqs (app c)) answers
  /\ 0 <= score (app (run w (answerAll answers) c)) <= len (mcqs (app c))
  /\ mcqs (app (run w (answerAll answers) c)) = mcqs (app c)
  /\ renderMCQs (app (run w (answerAll answers) c)) = [TryAgainClick].
Proof.
  intros Hne (Hi & _ & Ha & Hs & Hf) Hlen.
  assert (Q0 : quizAt (app c) (len (@nil Item)) false 0 false ([] ++ mcqs (app c)))
    by (unfold quizAt; auto).
  destruct (answerAll_from w (mcqs (app c)) [] answers c 0 Hne Hlen Q0)
    as (_ & _ & Rs & Rf & Rm).
  cbn [List.app] in Rs, Rf, Rm. rewrite Z.add_0_l in Rs.
  split; [exact Rf|]. split; [exact Rs|]. split; [|split; [exact Rm|]].
  - rewrite Rs. apply correctCount_bounds.
  - unfold renderMCQs. rewrite Rf. reflexivity.
Qed.

Lemma answer_all_counts_correct_witness :
  score (app (run exampleWorld (answerAll ["Paris"; "Milan"; "Bern"]) quiz3Config))
  = correctCount (mcqs (app quiz3Config)) ["Paris"; "Milan"; "Bern"].
Proof.
  destruct (answer_all_counts_correct exampleWorld quiz3Config ["Paris"; "Milan"; "Bern"])
    as (_ & H & _).
  - discriminate.
  - repeat split.
  - reflexivity.
  - exact H.
Defined.

(** X25.  The try-again button forgets the previous attempt: from any
    state of a non-empty quiz, finished or not, restarting and then
    answering every question gives the score of those answers alone. *)
Theorem try_again_replays (w : World) (c : Config) (answers : list string) :
  mcqs (app c) <> [] ->
  length answers = length (mcqs (app c)) ->
  quizInitial (app (dispatch w TryAgainClick c))
  /\ quizFinished (app (run w (answerAll answers) (dispatch w TryAgainClick c))) = true
  /\ score (app (run w (answerAll answers) (dispatch w TryAgainClick c)))
     = correctCount (mcqs (app c)) answers.
Proof.
  intros Hne Hlen.
  assert (Hinit : quizInitial (app (dispatch w TryAgainClick c))) by (repeat split).
  split; [exact Hinit|].
  assert (Q0 : quizAt (app (dispatch w TryAgainClick c)) (len (@nil Item)) false 0 false
                 ([] ++ mcqs (app c))) by (unfold quizAt; cbn; auto).
  destruct (answerAll_from w (mcqs (app c)) [] answers _ 0 Hne Hlen Q0)
    as (_ & _ & Rs & Rf & _).
  rewrite Z.add_0_l in Rs. auto.
Qed.

Lemma try_again_replays_witness :
  score (app (run exampleWorld (answerAll ["Lyon"])
                (dispatch exampleWorld TryAgainClick
                   (update (handleOptionClick "Paris") quizConfig))))
  = correctCount (mcqs (app (update (handleOptionClick "Paris") quizConfig))) ["Lyon"].
Proof.
  destruct (try_again_replays exampleWorld
              (update (handleOptionClick "Paris") quizConfig) ["Lyon"]) as (_ & _ & H).
  - discriminate.
  - reflexivity.
  - exact H.
Defined.

(** ** History panel and input switches *)





(** X27.  Switching the input type or the generation mode always
    disables the generate button, in either mode, since text and image are
    both cleared; the button is enabled again by typing a non-empty text (in
    text mode) or choosing a file (in image mode), unless a run is pending.
    A file dialog closed without a file changes nothing. *)
Theorem switching_disables_generate (w : World) (c : Config) :
  (forall type, generateDisabled (app (dispatch w (InputTypeClick type) c)) = true)
  /\ (forall mode, generateDisabled (app (dispatch w (GenerationModeClick mode) c)) = true)
  /\ (forall value, inputType (app c) = Text -> isLoading (app c) = false ->
      generateDisabled (app (dispatch w (TextChange value) c)) = falsy value)
  /\ (forall f, inputType (app c) = Image -> isLoading (app c) = false ->
      generateDisabled (app (dispatch w (ImageChange (Some f)) c)) = false
      /\ error (app (dispatch w (ImageChange (Some f)) c)) = None
      /\ imagePreview (app (dispatch w (ImageChange (Some f)) c)) = readerResult w)
  /\ app (dispatch w (ImageChange None) c) = app c.
Proof.
  split; [|split; [|split; [|split]]].
  - intros type. unfold generateDisabled. cbn.
    destruct type, (isLoading (app c)); reflexivity.
  - intros mode. unfold generateDisabled. cbn.
    destruct (inputType (app c)), (isLoading (app c)); reflexivity.
  - intros value Ht Hl. unfold generateDisabled. cbn. rewrite Ht, Hl. cbn.
    apply orb_false_r.
  - intros f Ht Hl. unfold generateDisabled. cbn. rewrite Ht, Hl. repeat split.
  - reflexivity.
Qed.

Lemma switching_disables_generate_witness :
  generateDisabled
    (app (dispatch exampleWorld (TextChange "Cells")
            (dispatch exampleWorld (InputTypeClick Text) imageConfig)))
  = falsy "Cells".
Proof.
  destruct (switching_disables_generate exampleWorld
              (dispatch exampleWorld (InputTypeClick Text) imageConfig))
    as (_ & _ & H & _).
  apply H; reflexivity.
Defined.
